(** * Report generators of the squirrel repository

    A shallow embedding of the two report scripts

      - [.github/scripts/generate_report.py]  (module [LogScanner]), and
      - [docs/income/automation/report-generator.py]  (module [ReviewReport]),

    over a small model of the Python run time they use (module [Py]):
    strings, the working directory, the clock, standard output and
    exceptions.  The theorems at the end relate the scripts to the
    properties listed in the specification. *)

From Stdlib Require Import Ascii String.
From stdpp Require Import gmap strings list fin_maps pretty.

Local Set Warnings "-register-all".
Local Open Scope string_scope.
Local Open Scope list_scope.

(* ===================================================================== *)
(** * The Python run time *)
(* ===================================================================== *)

Module Py.

(** ** Strings

    A Python [str] is represented by its UTF-8 encoding, one [ascii] per
    byte, which is how Rocq reads a string literal such as ["✅"]. *)

(** [needle in hay].  UTF-8 is self-synchronising, so that searching the
    encodings finds what searching the code points finds. *)
Fixpoint contains (needle hay : string) : bool :=
  String.prefix needle hay ||
  match hay with
  | EmptyString => false
  | String _ hay' => contains needle hay'
  end.

(** The one-byte line boundaries of [str.splitlines]: LF, VT, FF, CR, FS,
    GS and RS. *)
Definition is_linebreak (c : ascii) : bool :=
  match nat_of_ascii c with
  | 10 | 11 | 12 | 13 | 28 | 29 | 30 => true
  | _ => false
  end.

(** [s.splitlines()], with [cur] the line read so far.  CR LF counts as one
    boundary; NEL (U+0085), LS (U+2028) and PS (U+2029) are boundaries too
    and appear here in their encoded form.  A last line is produced only
    when it is not empty. *)
Fixpoint splitlines_from (cur s : string) : list string :=
  match s with
  | EmptyString => match cur with EmptyString => [] | _ => [cur] end
  | String "013" (String "010" rest) => cur :: splitlines_from "" rest
  | String "194" (String "133" rest) => cur :: splitlines_from "" rest
  | String "226" (String "128" (String "168" rest)) =>
      cur :: splitlines_from "" rest
  | String "226" (String "128" (String "169" rest)) =>
      cur :: splitlines_from "" rest
  | String c rest =>
      if is_linebreak c then cur :: splitlines_from "" rest
      else splitlines_from (cur +:+ String c "") rest
  end.

Definition splitlines (s : string) : list string := splitlines_from "" s.

(** [sep.join(xs)]. *)
Definition join (sep : string) (xs : list string) : string :=
  String.concat sep xs.

(** [f"{n}"] for a non-negative [int]. *)
Definition str_of_int (n : nat) : string := pretty n.

(** The truth value of a list: [if xs:]. *)
Definition truthy {A} (xs : list A) : bool :=
  match xs with [] => false | _ :: _ => true end.

(** ** Exceptions *)

Inductive exn_class :=
  | FileNotFoundError
  | FileExistsError
  | IsADirectoryError
  | NotADirectoryError
  | PermissionError
  | UnicodeDecodeError
  | JSONDecodeError
  | AttributeError
  | TypeError
  | TemplateNotFound
  | TemplateError.

(** An exception object: its class and [str(e)]. *)
Record exn := Exn { exn_cls : exn_class; exn_str : string }.

(** What ends a computation early: an exception of class [Exception], or
    [sys.exit(code)], which [except Exception] does not catch. *)
Inductive signal :=
  | Raise (e : exn)
  | SysExit (code : nat).

Inductive result (A : Type) :=
  | Ok (a : A)
  | Err (s : signal).
Arguments Ok {A} a.
Arguments Err {A} s.

(** ** The world: files, clock, standard output *)

(** An entry of the file system, by path.  The content of a file is the text
    that [read_text()] returns for it; a file that exists and cannot be read
    (no permission, bytes that do not decode) carries the exception that
    reading raises.  Write permissions are not modelled. *)
Inductive node :=
  | Dir
  | File (text : string)
  | Unreadable (e : exn).

Record datetime := Datetime {
  year : nat; month : nat; day : nat;
  hour : nat; minute : nat; second : nat
}.

(** [clock] gives the successive readings of the system clock and [ticks]
    counts the readings made so far. *)
Record world := World {
  files : gmap string node;
  stdout : list string;
  clock : nat → datetime;
  ticks : nat
}.

Definition set_files (w : world) (fs : gmap string node) : world :=
  {| files := fs; stdout := stdout w; clock := clock w; ticks := ticks w |}.

(** ** The monad of effectful code *)

Definition M (A : Type) : Type := world → result A * world.

#[export] Instance M_ret : MRet M := λ A a w, (Ok a, w).
#[export] Instance M_bind : MBind M := λ A B f m w,
  match m w with
  | (Ok a, w') => f a w'
  | (Err s, w') => (Err s, w')
  end.

(** Code that computes without touching the world, and may raise. *)
#[export] Instance result_ret : MRet result := λ A a, Ok a.
#[export] Instance result_bind : MBind result := λ A B f r,
  match r with
  | Ok a => f a
  | Err s => Err s
  end.

Definition lift {A} (r : result A) : M A := λ w, (r, w).

(** A call into a library that returns or raises. *)
Definition lift_exn {A} (r : exn + A) : M A :=
  λ w, match r with
       | inl e => (Err (Raise e), w)
       | inr a => (Ok a, w)
       end.

Definition raise {A} (cls : exn_class) (msg : string) : M A :=
  λ w, (Err (Raise (Exn cls msg)), w).

Definition sys_exit {A} (code : nat) : M A := λ w, (Err (SysExit code), w).

(** [try: body / except Exception as e: handler e]. *)
Definition try_except {A} (body : M A) (handler : exn → M A) : M A :=
  λ w, match body w with
       | (Err (Raise e), w') => handler e w'
       | r => r
       end.

Definition print (line : string) : M unit :=
  λ w, (Ok (), {| files := files w; stdout := stdout w ++ [line];
                  clock := clock w; ticks := ticks w |}).

(** [datetime.now()] and [datetime.utcnow()]: the next reading of the clock
    (each script uses one of the two only). *)
Definition now : M datetime :=
  λ w, (Ok (clock w (ticks w)),
        {| files := files w; stdout := stdout w;
           clock := clock w; ticks := S (ticks w) |}).

(** ** strftime *)

Definition pad2 (n : nat) : string :=
  if decide (n < 10) then "0" +:+ pretty n else pretty n.

(** [%Y] is the year in decimal, four digits from the year 1000 on. *)
Definition fmt_Y (d : datetime) : string := pretty (year d).

(** [strftime('%Y-%m-%d %H:%M:%S UTC')] *)
Definition strftime_utc (d : datetime) : string :=
  fmt_Y d +:+ "-" +:+ pad2 (month d) +:+ "-" +:+ pad2 (day d) +:+ " " +:+
  pad2 (hour d) +:+ ":" +:+ pad2 (minute d) +:+ ":" +:+ pad2 (second d) +:+
  " UTC".

(** [strftime("%Y-%m-%d")] *)
Definition strftime_date (d : datetime) : string :=
  fmt_Y d +:+ "-" +:+ pad2 (month d) +:+ "-" +:+ pad2 (day d).

(** [strftime('%Y%m%d')] *)
Definition strftime_compact (d : datetime) : string :=
  fmt_Y d +:+ pad2 (month d) +:+ pad2 (day d).

(** ** Files

    Paths are relative to the working directory, which exists, and are used as
    they are written (no [..], no doubled separators). *)

Definition has_slash (p : string) : bool := contains "/" p.

(** The directory part of a path: what precedes its last separator. *)
Fixpoint dirname (p : string) : string :=
  match p with
  | EmptyString => EmptyString
  | String c rest => if has_slash rest then String c (dirname rest) else ""
  end.

Definition is_dir (fs : gmap string node) (d : string) : bool :=
  match d with
  | EmptyString => true
  | _ => match fs !! d with Some Dir => true | _ => false end
  end.

Definition errno_msg (what path : string) : string :=
  what +:+ ": '" +:+ path +:+ "'".

(** [Path(p).exists()] *)
Definition path_exists (p : string) : M bool :=
  λ w, (Ok (bool_decide (is_Some (files w !! p))), w).

(** [os.path.isfile(p)] *)
Definition path_is_file (p : string) : M bool :=
  λ w, (Ok (match files w !! p with
            | Some (File _) | Some (Unreadable _) => true
            | _ => false
            end), w).

(** [Path(p).read_text()] and [open(p).read()] *)
Definition read_text (p : string) : M string :=
  λ w, match files w !! p with
       | Some (File text) => (Ok text, w)
       | Some (Unreadable e) => (Err (Raise e), w)
       | Some Dir =>
           raise IsADirectoryError (errno_msg "[Errno 21] Is a directory" p) w
       | None =>
           raise FileNotFoundError
                 (errno_msg "[Errno 2] No such file or directory" p) w
       end.

(** [Path(p).mkdir(exist_ok=True)] *)
Definition mkdir_exist_ok (p : string) : M unit :=
  λ w, match files w !! p with
       | Some Dir => (Ok (), w)
       | Some _ =>
           raise FileExistsError (errno_msg "[Errno 17] File exists" p) w
       | None =>
           if is_dir (files w) (dirname p)
           then (Ok (), set_files w (<[p := Dir]> (files w)))
           else raise FileNotFoundError
                  (errno_msg "[Errno 2] No such file or directory" p) w
       end.

(** [open(p, 'w')] followed by one [write(text)] and the close:
    [Path(p).write_text(text)], or [with open(p, 'w') as f: f.write(text)].
    The file is created or truncated by the [open], inside an existing
    directory only. *)
Definition write_text (p text : string) : M unit :=
  λ w, match files w !! p with
       | Some Dir =>
           raise IsADirectoryError (errno_msg "[Errno 21] Is a directory" p) w
       | _ =>
           if is_dir (files w) (dirname p)
           then (Ok (), set_files w (<[p := File text]> (files w)))
           else match files w !! dirname p with
                | Some _ =>
                    raise NotADirectoryError
                          (errno_msg "[Errno 20] Not a directory" p) w
                | None =>
                    raise FileNotFoundError
                          (errno_msg "[Errno 2] No such file or directory" p) w
                end
       end.

End Py.

Import Py.

(** The newline character, ["\n"]. *)
Definition nl : string := String "010" "".

(* ===================================================================== *)
(** * The Log Scanner: [.github/scripts/generate_report.py] *)
(* ===================================================================== *)

Module LogScanner.

(** The attributes of a [ReportGenerator] object. *)
Record ReportGenerator := {
  report_dir : string;
  report_path : string
}.

(** [ReportGenerator.__init__] *)
Definition __init__ : M ReportGenerator :=
  let report_dir := "reports" in
  _ ← mkdir_exist_ok report_dir;
  mret {| report_dir := report_dir;
          report_path := report_dir +:+ "/" +:+ "analysis-report.md" |}.

(** The loop shared by the three scanners,
<<
    found = []
    for line in lines:
        if marker in line:
            found.append(line)
>>
    with [found] the list built so far. *)
Definition matching_lines (marker : string) (lines : list string)
  : list string :=
  fold_left
    (λ found line, if contains marker line then found ++ [line] else found)
    lines [].

(** [ReportGenerator.process_clippy_output].  The two calls that can raise,
    [exists] and [read_text], come before every change of [results], so the
    handler finds [results] as it was initialised. *)
Definition process_clippy_output : M (list string) :=
  let results : list string := [] in
  try_except
    (let clippy_output := "clippy-output.txt" in
     found ← path_exists clippy_output;
     if (found : bool) then
       text ← read_text clippy_output;
       let warnings := matching_lines "warning:" (splitlines text) in
       if truthy warnings then
         mret (results ++
               ["Found " +:+ str_of_int (length warnings)
                         +:+ " clippy warnings:";
                "";
                "```"] ++ warnings ++ ["```"])
       else
         mret (results ++ ["No clippy warnings found."])
     else mret results)
    (λ e, mret (results
                ++ ["Error processing clippy output: " +:+ exn_str e])).

(** [ReportGenerator.process_fmt_output] *)
Definition process_fmt_output : M (list string) :=
  let results : list string := [] in
  try_except
    (let fmt_output := "fmt-output.txt" in
     found ← path_exists fmt_output;
     if (found : bool) then
       text ← read_text fmt_output;
       let formatting_issues := matching_lines "Diff in" (splitlines text) in
       if truthy formatting_issues then
         mret (results ++
               ["Found " +:+ str_of_int (length formatting_issues)
                         +:+ " formatting issues:";
                "";
                "```"] ++ formatting_issues ++ ["```"])
       else
         mret (results ++ ["No formatting issues found."])
     else mret results)
    (λ e, mret (results ++ ["Error processing fmt output: " +:+ exn_str e])).

(** [ReportGenerator.process_test_output] *)
Definition process_test_output : M (list string) :=
  let results : list string := [] in
  try_except
    (let test_output := "test-output.txt" in
     found ← path_exists test_output;
     if (found : bool) then
       test_content ← read_text test_output;
       if contains "test result: ok" test_content then
         mret (results ++ ["✅ All tests passed"])
       else
         let failed_tests :=
           matching_lines "test result: FAILED" (splitlines test_content) in
         if truthy failed_tests then
           mret (results ++
                 ["❌ Some tests failed:";
                  "";
                  "```"] ++ failed_tests ++ ["```"])
         else mret results
     else mret results)
    (λ e, mret (results ++ ["Error processing test output: " +:+ exn_str e])).

(** [ReportGenerator.generate_report] *)
Definition generate_report (self : ReportGenerator) : M unit :=
  t ← now;
  let report_content :=
    ["# Code Analysis Report";
     "Generated on: " +:+ strftime_utc t;
     "";
     "## Summary";
     ""] in
  clippy_results ← process_clippy_output;
  let report_content :=
    if truthy clippy_results then
      report_content ++
      ["### Rust Analysis"; ""; "#### Clippy Findings"; ""] ++
      clippy_results ++ [""]
    else report_content in
  fmt_results ← process_fmt_output;
  let report_content :=
    if truthy fmt_results then
      report_content ++
      ["#### Formatting Issues"; ""] ++ fmt_results ++ [""]
    else report_content in
  test_results ← process_test_output;
  let report_content :=
    if truthy test_results then
      report_content ++
      ["### Test Results"; ""] ++ test_results ++ [""]
    else report_content in
  _ ← write_text (report_path self) (join nl report_content);
  print ("Report generated at " +:+ report_path self).

(** [main] *)
Definition main : M unit :=
  generator ← __init__;
  generate_report generator.

End LogScanner.

(* ===================================================================== *)
(** * The Template-Based Report Builder:
      [docs/income/automation/report-generator.py] *)
(* ===================================================================== *)

Module ReviewReport.

(** What [json.load] returns: [None], [bool], [int], [float], [str], [list]
    and [dict] with [str] keys. *)
Inductive json :=
  | JNull
  | JBool (b : bool)
  | JInt (z : Z)
  | JFloat (literal : string)
  | JStr (s : string)
  | JArr (items : list json)
  | JObj (members : gmap string json).

Definition type_name (v : json) : string :=
  match v with
  | JNull => "NoneType"
  | JBool _ => "bool"
  | JInt _ => "int"
  | JFloat _ => "float"
  | JStr _ => "str"
  | JArr _ => "list"
  | JObj _ => "dict"
  end.

(** The number of code points of an encoded [str]: the bytes that are not
    continuation bytes. *)
Fixpoint code_points (s : string) : nat :=
  match s with
  | EmptyString => 0
  | String c rest =>
      (if decide (128 ≤ nat_of_ascii c < 192) then 0 else 1)
      + code_points rest
  end.

(** [d.get(key, dflt)] *)
Definition get (d : json) (key : string) (dflt : json) : result json :=
  match d with
  | JObj members => Ok (default dflt (members !! key))
  | _ => Err (Raise (Exn AttributeError
           ("'" +:+ type_name d +:+ "' object has no attribute 'get'")))
  end.

(** [len(v)] *)
Definition len (v : json) : result nat :=
  match v with
  | JArr items => Ok (length items)
  | JObj members => Ok (size members)
  | JStr s => Ok (code_points s)
  | _ => Err (Raise (Exn TypeError
           ("object of type '" +:+ type_name v +:+ "' has no len()")))
  end.

(** [ReportGenerator._calculate_metrics]: a [dict] display, its values
    computed from the first to the last. *)
Definition _calculate_metrics (analysis_data : json)
  : result (gmap string nat) :=
  files_reviewed ← get analysis_data "files" (JArr []) ≫= len;
  critical_issues ← get analysis_data "critical" (JArr []) ≫= len;
  major_issues ← get analysis_data "major" (JArr []) ≫= len;
  minor_issues ← get analysis_data "minor" (JArr []) ≫= len;
  best_practices ← get analysis_data "best_practices" (JArr []) ≫= len;
  mret (list_to_map
          [("files_reviewed", files_reviewed);
           ("critical_issues", critical_issues);
           ("major_issues", major_issues);
           ("minor_issues", minor_issues);
           ("best_practices", best_practices)]).

(** The keyword arguments of [template.render]: the dict [report_data]. *)
Record context := {
  project_name : string;
  date : string;
  reviewer : string;
  analysis : json;
  security : json;
  performance : json;
  metrics : gmap string nat
}.

(** [ReportGenerator.save_report] *)
Definition save_report (report_content output_file : string) : M unit :=
  write_text output_file report_content.

Definition usage : string :=
  "Usage: report-generator.py <project_name> <analysis_file> " +:+
  "<security_file> <performance_file>".

Section Libraries.

(** The two libraries the script calls: [json.loads] on the text of a file,
    and Jinja2, which compiles the source of a template and renders it in a
    context. *)
Variable json_loads : string → exn + json.
Variable template : Type.
Variable compile : string → exn + template.
Variable render : template → context → exn + string.

(** The attribute [self.template] of a [ReportGenerator] object
    ([self.env] is only used to load it). *)
Record ReportGenerator := { self_template : template }.

(** [ReportGenerator.__init__]: [get_template] looks the name up under
    [template_dir], where it must be a file, and compiles what it reads. *)
Definition __init__ (template_dir : string) : M ReportGenerator :=
  let name := "code_review_template.md" in
  let path := template_dir +:+ "/" +:+ name in
  present ← path_is_file path;
  if (present : bool) then
    source ← read_text path;
    t ← lift_exn (compile source);
    mret {| self_template := t |}
  else raise TemplateNotFound name.

(** [ReportGenerator.load_analysis_data] *)
Definition load_analysis_data (analysis_file : string) : M json :=
  text ← read_text analysis_file;
  lift_exn (json_loads text).

(** [ReportGenerator.load_security_data] *)
Definition load_security_data (security_file : string) : M json :=
  text ← read_text security_file;
  lift_exn (json_loads text).

(** [ReportGenerator.load_performance_data] *)
Definition load_performance_data (performance_file : string) : M json :=
  text ← read_text performance_file;
  lift_exn (json_loads text).

(** [ReportGenerator.generate_report] *)
Definition generate_report (self : ReportGenerator) (project_name : string)
    (analysis_data security_data performance_data : json) : M string :=
  t ← now;
  metrics ← lift (_calculate_metrics analysis_data);
  let report_data :=
    {| project_name := project_name;
       date := strftime_date t;
       reviewer := "DataScienceBioLab";
       analysis := analysis_data;
       security := security_data;
       performance := performance_data;
       metrics := metrics |} in
  lift_exn (render (self_template self) report_data).

(** [main], with [argv] the list [sys.argv]. *)
Definition main (argv : list string) : M unit :=
  if decide (length argv < 5) then
    _ ← print usage;
    sys_exit 1
  else
    let project_name := argv !!! 1 in
    let analysis_file := argv !!! 2 in
    let security_file := argv !!! 3 in
    let performance_file := argv !!! 4 in
    generator ← __init__ "templates";
    analysis_data ← load_analysis_data analysis_file;
    security_data ← load_security_data security_file;
    performance_data ← load_performance_data performance_file;
    report ← generate_report generator project_name
                analysis_data security_data performance_data;
    t ← now;
    let output_file :=
      "reports/" +:+ project_name +:+ "-review-" +:+ strftime_compact t
                 +:+ ".md" in
    _ ← save_report report output_file;
    print ("Report generated: " +:+ output_file).

End Libraries.

End ReviewReport.

(* ===================================================================== *)
(** * Vocabulary of the statements *)
(* ===================================================================== *)

Section ScannerVocabulary.

Import LogScanner.

(** The value a computation returns in a world ([[]] if it raises). *)
Definition results_of (m : M (list string)) (w : world) : list string :=
  match m w with
  | (Ok results, _) => results
  | (Err _, _) => []
  end.

(** The lines of [text] that contain [marker], in the order of the file. *)
Definition matches (marker text : string) : list string :=
  filter (λ line, Is_true (contains marker line)) (splitlines text).

(** The exception that reading the entry [n] at path [p] raises, if any. *)
Definition read_error (p : string) (n : node) : option exn :=
  match n with
  | File _ => None
  | Unreadable e => Some e
  | Dir => Some (Exn IsADirectoryError
                     (errno_msg "[Errno 21] Is a directory" p))
  end.

(** The value of [report_content] at the end of [generate_report], from the
    timestamp and the lines of the three scanners. *)
Definition report_content (stamp : string)
    (clippy_results fmt_results test_results : list string) : list string :=
  let report_content :=
    ["# Code Analysis Report";
     "Generated on: " +:+ stamp;
     "";
     "## Summary";
     ""] in
  let report_content :=
    if truthy clippy_results then
      report_content ++
      ["### Rust Analysis"; ""; "#### Clippy Findings"; ""] ++
      clippy_results ++ [""]
    else report_content in
  let report_content :=
    if truthy fmt_results then
      report_content ++
      ["#### Formatting Issues"; ""] ++ fmt_results ++ [""]
    else report_content in
  let report_content :=
    if truthy test_results then
      report_content ++
      ["### Test Results"; ""] ++ test_results ++ [""]
    else report_content in
  report_content.

(** The lines of the report that a run started in [w] assembles. *)
Definition report_lines (w : world) : list string :=
  report_content (strftime_utc (clock w (ticks w)))
    (results_of process_clippy_output w)
    (results_of process_fmt_output w)
    (results_of process_test_output w).

(** What the run needs of the output location: [reports] is a directory or
    can be created, and the report path is not a directory. *)
Definition output_writable (fs : gmap string node) : Prop :=
  (fs !! "reports" = None ∨ fs !! "reports" = Some Dir) ∧
  fs !! "reports/analysis-report.md" ≠ Some Dir.

(** The object that [ReportGenerator()] returns. *)
Definition the_generator : ReportGenerator :=
  {| report_dir := "reports"; report_path := "reports/analysis-report.md" |}.

(** The five lines every report starts with. *)
Definition header (stamp : string) : list string :=
  ["# Code Analysis Report"; "Generated on: " +:+ stamp; ""; "## Summary"; ""].

(** A section: its heading lines, the scanner's lines and a blank line, or
    nothing at all when the scanner produced nothing. *)
Definition section (heading results : list string) : list string :=
  if truthy results then heading ++ results ++ [""] else [].

(** The heading lines of the three sections. *)
Definition clippy_heading : list string :=
  ["### Rust Analysis"; ""; "#### Clippy Findings"; ""].
Definition fmt_heading : list string := ["#### Formatting Issues"; ""].
Definition test_heading : list string := ["### Test Results"; ""].

(** The lines a scanner can produce: a line of its file that contains its
    marker, one of its fixed lines, its count line or its diagnostic. *)
Definition scanner_line (marker : string) (fixed : list string) (x : string)
  : Prop :=
  Is_true (contains marker x) ∨ x ∈ fixed ∨
  Is_true (String.prefix "Found " x) ∨
  Is_true (String.prefix "Error processing " x).

(** [block] is a run of consecutive lines of the report. *)
Definition renders (w : world) (block : list string) : Prop :=
  ∃ pre post, report_lines w = pre ++ block ++ post.

(** The text of the report file after a run, if the run ended normally. *)
Definition written_report (w : world) : option string :=
  match main w with
  | (Ok _, w') =>
      match files w' !! "reports/analysis-report.md" with
      | Some (File text) => Some text
      | _ => None
      end
  | (Err _, _) => None
  end.

(** What follows the timestamp line in the text of the report. *)
Definition after_timestamp (w : world) : string :=
  join nl
    (["";  "## Summary"; ""]
     ++ section clippy_heading (results_of process_clippy_output w)
     ++ section fmt_heading (results_of process_fmt_output w)
     ++ section test_heading (results_of process_test_output w)).

(** ** Sample logs and worlds *)

(** A world with the given files, nothing printed and the clock stopped at
    10:37:05 on 3 November 2026. *)
Definition world_of (fs : gmap string node) : world :=
  {| files := fs; stdout := [];
     clock := λ _, Datetime 2026 11 3 10 37 5; ticks := 0 |}.

Definition quiet_tests : gmap string node :=
  {[ "test-output.txt" := File "running 0 tests" ]}.

Definition quiet_logs : gmap string node :=
  {[ "clippy-output.txt" := File "Finished dev profile";
     "fmt-output.txt" := File "Finished dev profile";
     "test-output.txt" := File "Finished dev profile" ]}.

Definition two_warnings : string :=
  "warning: unused variable" +:+ nl +:+
  "   Compiling squirrel v0.1.0" +:+ nl +:+
  "warning: unused import" +:+ nl.

Definition passing_tests : string :=
  "running 5 tests" +:+ nl +:+
  "test parse ... ok" +:+ nl +:+
  "test result: FAILED. 0 passed; 1 failed (an earlier run)" +:+ nl +:+
  "test result: ok. 5 passed; 0 failed" +:+ nl.

Definition permission_denied : exn :=
  Exn PermissionError "[Errno 13] Permission denied: 'fmt-output.txt'".

Definition unreadable_fmt : gmap string node :=
  {[ "fmt-output.txt" := Unreadable permission_denied ]}.

(** The same Clippy log in two working directories, read at two times. *)
Definition run_one : world :=
  {| files := {[ "clippy-output.txt" := File two_warnings ]};
     stdout := [];
     clock := λ _, Datetime 2026 11 3 10 37 5;
     ticks := 0 |}.

Definition run_two : world :=
  {| files := {[ "clippy-output.txt" := File two_warnings;
                 "reports" := Dir;
                 "reports/analysis-report.md" := File "an earlier report" ]};
     stdout := ["cargo clippy finished"];
     clock := λ _, Datetime 2027 1 2 23 59 0;
     ticks := 7 |}.

Definition unformatted : gmap string node :=
  {[ "fmt-output.txt" := File "Diff in /src/main.rs at line 3:" ]}.

End ScannerVocabulary.

Section BuilderVocabulary.

Import ReviewReport.

(** The length of the list under [key], and 0 where there is none. *)
Definition count_under (members : gmap string json) (key : string) : nat :=
  match members !! key with
  | Some (JArr items) => length items
  | _ => 0
  end.

(** [key] is absent or holds a list. *)
Definition list_or_absent (members : gmap string json) (key : string) : Prop :=
  match members !! key with
  | Some (JArr _) | None => True
  | Some _ => False
  end.

Definition two_files : gmap string json :=
  {[ "files" := JArr [JStr "src/main.rs"; JStr "src/lib.rs"];
     "critical" := JArr [JStr "unwrap on user input"];
     "summary" := JStr "looks fine" ]}.

Context (json_loads : string → exn + json).
Context (template : Type).
Context (render : template → context → exn + string).

(** What loading the JSON document at [p] gives. *)
Definition load_result (fs : gmap string node) (p : string) : exn + json :=
  match fs !! p with
  | None => inl (Exn FileNotFoundError
                     (errno_msg "[Errno 2] No such file or directory" p))
  | Some Dir => inl (Exn IsADirectoryError
                         (errno_msg "[Errno 21] Is a directory" p))
  | Some (Unreadable e) => inl e
  | Some (File text) => json_loads text
  end.

(** The ways loading [p] fails: there is no such file, the file cannot be
    read, or its text is not a JSON document. *)
Inductive load_fails (fs : gmap string node) (p : string) : exn → Prop :=
  | load_not_found :
      fs !! p = None →
      load_fails fs p (Exn FileNotFoundError
                           (errno_msg "[Errno 2] No such file or directory" p))
  | load_unreadable n e :
      fs !! p = Some n → read_error p n = Some e → load_fails fs p e
  | load_malformed text e :
      fs !! p = Some (File text) → json_loads text = inl e →
      load_fails fs p e.

(** What [main] does once the three documents are loaded. *)
Definition render_and_save (g : ReportGenerator template)
    (project_name : string) (a s p : json) : M unit :=
  report ← generate_report template render g project_name a s p;
  t ← now;
  let output_file :=
    "reports/" +:+ project_name +:+ "-review-" +:+ strftime_compact t
               +:+ ".md" in
  _ ← save_report report output_file;
  print ("Report generated: " +:+ output_file).

End BuilderVocabulary.

Section Samples.

Import ReviewReport.

(** A parser that knows the empty document only, and a template engine that
    appends the project name and the date to the template. *)
Definition sample_loads (text : string) : exn + json :=
  if decide (text = "{}") then inr (JObj ∅)
  else inl (Exn JSONDecodeError "Expecting value: line 1 column 1 (char 0)").

Definition sample_compile (source : string) : exn + string := inr source.

Definition sample_render (source : string) (c : context) : exn + string :=
  inr (source +:+ project_name c +:+ " (" +:+ date c +:+ ")").

Definition sample_main : list string → M unit :=
  main sample_loads string sample_compile sample_render.

Definition sample_argv : list string :=
  ["report-generator.py"; "squirrel";
   "analysis.json"; "security.json"; "performance.json"].

Definition sample_inputs : gmap string node :=
  {[ "templates/code_review_template.md" := File "# Review of ";
     "analysis.json" := File "{}";
     "security.json" := File "{}";
     "performance.json" := File "{}" ]}.

Definition sample_inputs_with_reports : gmap string node :=
  <["reports" := Dir]>
    (<["reports/squirrel-review-20261103.md" := File "an earlier review"]>
       sample_inputs).

End Samples.

Section MoreVocabulary.

Import ReviewReport.

(** What [len] gives for a value that has a length: the number of items of
    a list, of keys of a dict, of characters of a string. *)
Definition py_size (v : json) : option nat :=
  match v with
  | JArr items => Some (length items)
  | JObj members => Some (size members)
  | JStr s => Some (code_points s)
  | _ => None
  end.

(** [len(members.get(key, []))] *)
Definition count_of (members : gmap string json) (key : string) : result nat :=
  len (default (JArr []) (members !! key)).

(** The keys that [_calculate_metrics] reads. *)
Definition metric_keys : list string :=
  ["files"; "critical"; "major"; "minor"; "best_practices"].

(** The keys it reads, each with the name of its count. *)
Definition metric_fields : list (string * string) :=
  [("files", "files_reviewed"); ("critical", "critical_issues");
   ("major", "major_issues"); ("minor", "minor_issues");
   ("best_practices", "best_practices")].

(** The world after one more reading of the clock. *)
Definition tick (w : world) : world :=
  {| files := files w; stdout := stdout w;
     clock := clock w; ticks := S (ticks w) |}.




End MoreVocabulary.

Section MoreSamples.

Import ReviewReport.

(** A parser that knows the empty mapping and the empty list. *)
Definition list_loads (text : string) : exn + json :=
  if decide (text = "{}") then inr (JObj ∅)
  else if decide (text = "[]") then inr (JArr [])
  else inl (Exn JSONDecodeError "Expecting value: line 1 column 1 (char 0)").

(** The sample inputs, with a list for analysis document. *)
Definition list_inputs : gmap string node :=
  <["analysis.json" := File "[]"]> sample_inputs_with_reports.

(** A mapping whose values are not lists. *)
Definition string_valued : gmap string json :=
  {[ "files" := JStr "héllo";
     "critical" := JObj {[ "a" := JNull; "b" := JNull ]} ]}.

(** A working directory where [reports] is a file. *)
Definition broken_output : gmap string node :=
  {[ "reports" := File "not a directory";
     "clippy-output.txt" := File "warning: unused" ]}.

(** A world whose clock advances by a second at each reading. *)
Definition ticking_world : world :=
  {| files := {[ "clippy-output.txt" := File two_warnings ]};
     stdout := [];
     clock := λ n, Datetime 2026 11 3 10 37 n;
     ticks := 5 |}.

End MoreSamples.

(* ===================================================================== *)
(** * Properties of the Log Scanner *)
(* ===================================================================== *)

Section LogScannerFacts.

Import LogScanner.

Lemma path_exists_lookup p w :
  path_exists p w =
  (Ok (match files w !! p with Some _ => true | None => false end), w).
Proof.
  unfold path_exists. do 2 f_equal.
  destruct (files w !! p) as [n|] eqn:Hp.
  - apply bool_decide_eq_true_2. by exists n.
  - apply bool_decide_eq_false_2. by intros [? ?].
Qed.

(** The loop appends to what it has found so far. *)
Lemma matching_lines_acc marker lines acc :
  fold_left
    (λ found line, if contains marker line then found ++ [line] else found)
    lines acc
  = acc ++ filter (λ line, Is_true (contains marker line)) lines.
Proof.
  revert acc. induction lines as [|l lines IH]; intros acc; simpl.
  - by rewrite app_nil_r.
  - rewrite IH. destruct (contains marker l) eqn:Hl.
    + rewrite filter_cons_True by (by apply Is_true_true_2).
      by rewrite <- app_assoc.
    + rewrite filter_cons_False; [done |].
      by rewrite Is_true_false, Hl.
Qed.

Lemma matching_lines_filter marker lines :
  matching_lines marker lines
  = filter (λ line, Is_true (contains marker line)) lines.
Proof. unfold matching_lines. by rewrite matching_lines_acc. Qed.

Ltac run_scanner H :=
  unfold process_clippy_output, process_fmt_output, process_test_output,
    try_except, mbind, M_bind;
  cbv zeta; rewrite path_exists_lookup; cbv beta iota; rewrite H;
  unfold read_text, raise, mret, M_ret; cbv beta iota; rewrite ?H;
  cbv beta iota; rewrite ?matching_lines_filter.

Ltac run_failure H He :=
  match type of He with
  | read_error _ ?n = _ =>
      destruct n; simpl in He; simplify_eq; run_scanner H; reflexivity
  end.

(** *** [process_clippy_output] by cases on the source file *)

Lemma process_clippy_output_absent w :
  files w !! "clippy-output.txt" = None →
  process_clippy_output w = (Ok [], w).
Proof. intros H. run_scanner H. reflexivity. Qed.

Lemma process_clippy_output_failure w n e :
  files w !! "clippy-output.txt" = Some n →
  read_error "clippy-output.txt" n = Some e →
  process_clippy_output w
  = (Ok ["Error processing clippy output: " +:+ exn_str e], w).
Proof. intros H He. run_failure H He. Qed.

Lemma process_clippy_output_text w text :
  files w !! "clippy-output.txt" = Some (File text) →
  process_clippy_output w
  = (Ok (let warnings := matches "warning:" text in
         if truthy warnings then
           ["Found " +:+ str_of_int (length warnings) +:+ " clippy warnings:";
            ""; "```"] ++ warnings ++ ["```"]
         else ["No clippy warnings found."]), w).
Proof.
  intros H. run_scanner H. fold (matches "warning:" text).
  by destruct (truthy (matches "warning:" text)).
Qed.

(** *** [process_fmt_output] *)

Lemma process_fmt_output_absent w :
  files w !! "fmt-output.txt" = None →
  process_fmt_output w = (Ok [], w).
Proof. intros H. run_scanner H. reflexivity. Qed.

Lemma process_fmt_output_failure w n e :
  files w !! "fmt-output.txt" = Some n →
  read_error "fmt-output.txt" n = Some e →
  process_fmt_output w
  = (Ok ["Error processing fmt output: " +:+ exn_str e], w).
Proof. intros H He. run_failure H He. Qed.

Lemma process_fmt_output_text w text :
  files w !! "fmt-output.txt" = Some (File text) →
  process_fmt_output w
  = (Ok (let formatting_issues := matches "Diff in" text in
         if truthy formatting_issues then
           ["Found " +:+ str_of_int (length formatting_issues)
                     +:+ " formatting issues:";
            ""; "```"] ++ formatting_issues ++ ["```"]
         else ["No formatting issues found."]), w).
Proof.
  intros H. run_scanner H. fold (matches "Diff in" text).
  by destruct (truthy (matches "Diff in" text)).
Qed.

(** *** [process_test_output] *)

Lemma process_test_output_absent w :
  files w !! "test-output.txt" = None →
  process_test_output w = (Ok [], w).
Proof. intros H. run_scanner H. reflexivity. Qed.

Lemma process_test_output_failure w n e :
  files w !! "test-output.txt" = Some n →
  read_error "test-output.txt" n = Some e →
  process_test_output w
  = (Ok ["Error processing test output: " +:+ exn_str e], w).
Proof. intros H He. run_failure H He. Qed.

Lemma process_test_output_text w text :
  files w !! "test-output.txt" = Some (File text) →
  process_test_output w
  = (Ok (if contains "test result: ok" text then ["✅ All tests passed"]
         else
           let failed_tests := matches "test result: FAILED" text in
           if truthy failed_tests then
             ["❌ Some tests failed:"; ""; "```"] ++ failed_tests ++ ["```"]
           else []), w).
Proof.
  intros H. run_scanner H. fold (matches "test result: FAILED" text).
  destruct (contains "test result: ok" text); [done|].
  by destruct (truthy (matches "test result: FAILED" text)).
Qed.

(** Every entry of the file system is read with or without an error. *)
Lemma node_cases p (n : node) :
  (∃ text, n = File text) ∨ (∃ e, read_error p n = Some e).
Proof. destruct n; simpl; eauto. Qed.

(** The scanners never raise and leave the world as it is. *)
Lemma process_clippy_output_total w :
  process_clippy_output w = (Ok (results_of process_clippy_output w), w).
Proof.
  unfold results_of.
  destruct (files w !! "clippy-output.txt") as [n|] eqn:H.
  - destruct (node_cases "clippy-output.txt" n) as [[text ->]|[e He]].
    + by rewrite (process_clippy_output_text _ _ H).
    + by rewrite (process_clippy_output_failure _ _ _ H He).
  - by rewrite (process_clippy_output_absent _ H).
Qed.

Lemma process_fmt_output_total w :
  process_fmt_output w = (Ok (results_of process_fmt_output w), w).
Proof.
  unfold results_of.
  destruct (files w !! "fmt-output.txt") as [n|] eqn:H.
  - destruct (node_cases "fmt-output.txt" n) as [[text ->]|[e He]].
    + by rewrite (process_fmt_output_text _ _ H).
    + by rewrite (process_fmt_output_failure _ _ _ H He).
  - by rewrite (process_fmt_output_absent _ H).
Qed.

Lemma process_test_output_total w :
  process_test_output w = (Ok (results_of process_test_output w), w).
Proof.
  unfold results_of.
  destruct (files w !! "test-output.txt") as [n|] eqn:H.
  - destruct (node_cases "test-output.txt" n) as [[text ->]|[e He]].
    + by rewrite (process_test_output_text _ _ H).
    + by rewrite (process_test_output_failure _ _ _ H He).
  - by rewrite (process_test_output_absent _ H).
Qed.

(** The scanners look at their own source file only. *)
Lemma process_clippy_output_ext w1 w2 :
  files w1 !! "clippy-output.txt" = files w2 !! "clippy-output.txt" →
  results_of process_clippy_output w1 = results_of process_clippy_output w2.
Proof.
  intros Heq. unfold results_of.
  destruct (files w2 !! "clippy-output.txt") as [n|] eqn:H.
  - destruct (node_cases "clippy-output.txt" n) as [[text ->]|[e He]].
    + by rewrite (process_clippy_output_text _ _ H),
                 (process_clippy_output_text _ _ Heq).
    + by rewrite (process_clippy_output_failure _ _ _ H He),
                 (process_clippy_output_failure _ _ _ Heq He).
  - by rewrite (process_clippy_output_absent _ H),
               (process_clippy_output_absent _ Heq).
Qed.

Lemma process_fmt_output_ext w1 w2 :
  files w1 !! "fmt-output.txt" = files w2 !! "fmt-output.txt" →
  results_of process_fmt_output w1 = results_of process_fmt_output w2.
Proof.
  intros Heq. unfold results_of.
  destruct (files w2 !! "fmt-output.txt") as [n|] eqn:H.
  - destruct (node_cases "fmt-output.txt" n) as [[text ->]|[e He]].
    + by rewrite (process_fmt_output_text _ _ H),
                 (process_fmt_output_text _ _ Heq).
    + by rewrite (process_fmt_output_failure _ _ _ H He),
                 (process_fmt_output_failure _ _ _ Heq He).
  - by rewrite (process_fmt_output_absent _ H),
               (process_fmt_output_absent _ Heq).
Qed.

Lemma process_test_output_ext w1 w2 :
  files w1 !! "test-output.txt" = files w2 !! "test-output.txt" →
  results_of process_test_output w1 = results_of process_test_output w2.
Proof.
  intros Heq. unfold results_of.
  destruct (files w2 !! "test-output.txt") as [n|] eqn:H.
  - destruct (node_cases "test-output.txt" n) as [[text ->]|[e He]].
    + by rewrite (process_test_output_text _ _ H),
                 (process_test_output_text _ _ Heq).
    + by rewrite (process_test_output_failure _ _ _ H He),
                 (process_test_output_failure _ _ _ Heq He).
  - by rewrite (process_test_output_absent _ H),
               (process_test_output_absent _ Heq).
Qed.

(** [generate_report] reads the clock, scans, and then only writes and
    prints. *)
Lemma generate_report_run self w :
  generate_report self w =
  match write_text (report_path self) (join nl (report_lines w))
          {| files := files w; stdout := stdout w;
             clock := clock w; ticks := S (ticks w) |} with
  | (Ok _, w') => print ("Report generated at " +:+ report_path self) w'
  | (Err s, w') => (Err s, w')
  end.
Proof.
  unfold generate_report, mbind, M_bind, now. cbv beta iota zeta.
  rewrite process_clippy_output_total, process_fmt_output_total,
    process_test_output_total.
  rewrite (process_clippy_output_ext _ w), (process_fmt_output_ext _ w),
    (process_test_output_ext _ w) by reflexivity.
  reflexivity.
Qed.

(** ** The whole run *)

Lemma init_run w :
  files w !! "reports" = None ∨ files w !! "reports" = Some Dir →
  __init__ w = (Ok the_generator, set_files w (<["reports" := Dir]> (files w))).
Proof.
  intros H. unfold __init__, mbind, M_bind, mkdir_exist_ok. cbv zeta.
  destruct H as [H|H]; rewrite H.
  - reflexivity.
  - rewrite (insert_id _ _ _ H). by destruct w.
Qed.

Lemma main_run w :
  output_writable (files w) →
  main w =
  (Ok (),
   {| files := <["reports/analysis-report.md" :=
                   File (join nl (report_lines w))]>
                 (<["reports" := Dir]> (files w));
      stdout := stdout w ++ ["Report generated at reports/analysis-report.md"];
      clock := clock w;
      ticks := S (ticks w) |}).
Proof.
  intros [Hdir Hout]. unfold main, mbind at 1, M_bind at 1.
  rewrite (init_run _ Hdir), generate_report_run.
  assert (report_lines (set_files w (<["reports" := Dir]> (files w)))
          = report_lines w) as ->.
  { unfold report_lines.
    rewrite (process_clippy_output_ext _ w), (process_fmt_output_ext _ w),
      (process_test_output_ext _ w); [done | | |];
      simpl; by rewrite lookup_insert_ne. }
  unfold write_text, print, set_files. cbn [the_generator report_path].
  cbn [files stdout clock ticks].
  rewrite lookup_insert_ne by done.
  change (dirname "reports/analysis-report.md") with "reports".
  unfold is_dir. rewrite lookup_insert_eq.
  destruct (files w !! "reports/analysis-report.md") as [[]|] eqn:Hp;
    [done | reflexivity ..].
Qed.

(** ** The shape of the report *)

Lemma report_content_sections stamp c f t :
  report_content stamp c f t
  = header stamp ++ section clippy_heading c ++ section fmt_heading f
      ++ section test_heading t.
Proof.
  unfold report_content, section, header, clippy_heading, fmt_heading,
    test_heading.
  destruct (truthy c), (truthy f), (truthy t);
    repeat rewrite <- app_assoc; rewrite ?app_nil_r; reflexivity.
Qed.

Lemma truthy_nil {A} (xs : list A) : truthy xs = false ↔ xs = [].
Proof. by destruct xs. Qed.

Lemma elem_of_section x heading results :
  x ∈ section heading results →
  results ≠ [] ∧ (x ∈ heading ∨ x ∈ results ∨ x = "").
Proof.
  unfold section. destruct results as [|r results]; cbn [truthy].
  - by intros ?%elem_of_nil.
  - rewrite !elem_of_app, list_elem_of_singleton. intros H. split; [done|].
    tauto.
Qed.

Lemma elem_of_matches marker text x :
  x ∈ matches marker text ↔
  x ∈ splitlines text ∧ Is_true (contains marker x).
Proof. unfold matches. rewrite list_elem_of_filter. tauto. Qed.

Lemma prefix_append p s : Is_true (String.prefix p (p +:+ s)).
Proof.
  induction p as [|c p IH]; simpl.
  - by destruct s.
  - by destruct (ascii_dec c c).
Qed.

Lemma scanner_line_found marker fixed s :
  scanner_line marker fixed ("Found " +:+ s).
Proof. right; right; left. apply prefix_append. Qed.

Lemma scanner_line_error marker fixed s :
  scanner_line marker fixed ("Error processing " +:+ s).
Proof. right; right; right. apply prefix_append. Qed.

Lemma scanner_line_fixed marker fixed x :
  x ∈ fixed → scanner_line marker fixed x.
Proof. intros H. right; by left. Qed.

Lemma scanner_line_match marker fixed text x :
  x ∈ matches marker text → scanner_line marker fixed x.
Proof. intros [_ H]%elem_of_matches. by left. Qed.

(** The lines of a count line, a fence, the matches and a fence. *)
Lemma fenced_block_lines marker fixed text count x :
  "" ∈ fixed → "```" ∈ fixed →
  x ∈ ["Found " +:+ count; ""; "```"] ++ matches marker text ++ ["```"] →
  scanner_line marker fixed x.
Proof.
  intros H0 H1. rewrite !elem_of_app, !elem_of_cons, !elem_of_nil.
  intros [[->|[->|[->|[]]]]|[?|[->|[]]]];
    eauto using scanner_line_found, scanner_line_fixed, scanner_line_match.
Qed.

Ltac fixed_line := apply scanner_line_fixed; rewrite !elem_of_cons; tauto.

Lemma clippy_results_lines w x :
  x ∈ results_of process_clippy_output w →
  scanner_line "warning:" [""; "```"; "No clippy warnings found."] x.
Proof.
  unfold results_of.
  destruct (files w !! "clippy-output.txt") as [n|] eqn:H.
  - destruct (node_cases "clippy-output.txt" n) as [[text ->]|[e He]].
    + rewrite (process_clippy_output_text _ _ H). cbv zeta.
      destruct (truthy _).
      * apply fenced_block_lines; rewrite !elem_of_cons; tauto.
      * intros ->%list_elem_of_singleton. fixed_line.
    + rewrite (process_clippy_output_failure _ _ _ H He).
      intros ->%list_elem_of_singleton.
      apply (scanner_line_error _ _ ("clippy output: " +:+ exn_str e)).
  - rewrite (process_clippy_output_absent _ H). by intros ?%elem_of_nil.
Qed.

Lemma fmt_results_lines w x :
  x ∈ results_of process_fmt_output w →
  scanner_line "Diff in" [""; "```"; "No formatting issues found."] x.
Proof.
  unfold results_of.
  destruct (files w !! "fmt-output.txt") as [n|] eqn:H.
  - destruct (node_cases "fmt-output.txt" n) as [[text ->]|[e He]].
    + rewrite (process_fmt_output_text _ _ H). cbv zeta.
      destruct (truthy _).
      * apply fenced_block_lines; rewrite !elem_of_cons; tauto.
      * intros ->%list_elem_of_singleton. fixed_line.
    + rewrite (process_fmt_output_failure _ _ _ H He).
      intros ->%list_elem_of_singleton.
      apply (scanner_line_error _ _ ("fmt output: " +:+ exn_str e)).
  - rewrite (process_fmt_output_absent _ H). by intros ?%elem_of_nil.
Qed.

Lemma test_results_lines w x :
  x ∈ results_of process_test_output w →
  scanner_line "test result: FAILED"
    [""; "```"; "✅ All tests passed"; "❌ Some tests failed:"] x.
Proof.
  unfold results_of.
  destruct (files w !! "test-output.txt") as [n|] eqn:H.
  - destruct (node_cases "test-output.txt" n) as [[text ->]|[e He]].
    + rewrite (process_test_output_text _ _ H). cbv zeta.
      destruct (contains "test result: ok" text).
      { intros ->%list_elem_of_singleton. fixed_line. }
      destruct (truthy _); [|by intros ?%elem_of_nil].
      rewrite !elem_of_app, !elem_of_cons, !elem_of_nil.
      intros [[->|[->|[->|[]]]]|[?|[->|[]]]];
        eauto using scanner_line_match; fixed_line.
    + rewrite (process_test_output_failure _ _ _ H He).
      intros ->%list_elem_of_singleton.
      apply (scanner_line_error _ _ ("test output: " +:+ exn_str e)).
  - rewrite (process_test_output_absent _ H). by intros ?%elem_of_nil.
Qed.

(** A line that no scanner produces: it fails the four tests. *)
Ltac not_in_list H :=
  unfold clippy_heading, fmt_heading, test_heading in H;
  rewrite !elem_of_cons, elem_of_nil in H;
  repeat (destruct H as [H|H]; [discriminate H|]); destruct H.

Ltac not_scanner_line H :=
  destruct H as [H|[H|[H|H]]];
  [ by vm_compute in H
  | not_in_list H
  | by vm_compute in H
  | by vm_compute in H ].

Ltac absurd_line H :=
  first [ done
        | cbn [String.append] in H; discriminate H
        | not_in_list H
        | not_scanner_line H ].

Lemma header_lines stamp x :
  x ∈ header stamp →
  x ∈ ["# Code Analysis Report"; ""; "## Summary"] ∨
  x = "Generated on: " +:+ stamp.
Proof. unfold header. rewrite !elem_of_cons, !elem_of_nil. tauto. Qed.

(** The lines of the report, by where they come from. *)
Lemma report_lines_cases w x :
  x ∈ report_lines w →
  x ∈ ["# Code Analysis Report"; ""; "## Summary"] ∨
  x = "Generated on: " +:+ strftime_utc (clock w (ticks w)) ∨
  (results_of process_clippy_output w ≠ [] ∧
   (x ∈ clippy_heading ∨
    scanner_line "warning:" [""; "```"; "No clippy warnings found."] x)) ∨
  (results_of process_fmt_output w ≠ [] ∧
   (x ∈ fmt_heading ∨
    scanner_line "Diff in" [""; "```"; "No formatting issues found."] x)) ∨
  (results_of process_test_output w ≠ [] ∧
   (x ∈ test_heading ∨
    scanner_line "test result: FAILED"
      [""; "```"; "✅ All tests passed"; "❌ Some tests failed:"] x)).
Proof.
  unfold report_lines. rewrite report_content_sections, !elem_of_app.
  intros [H|[H|[H|H]]].
  - apply header_lines in H. tauto.
  - apply elem_of_section in H as [Hne [H|[H| ->]]].
    + tauto.
    + apply clippy_results_lines in H. tauto.
    + left. rewrite !elem_of_cons. tauto.
  - apply elem_of_section in H as [Hne [H|[H| ->]]].
    + tauto.
    + apply fmt_results_lines in H. tauto.
    + left. rewrite !elem_of_cons. tauto.
  - apply elem_of_section in H as [Hne [H|[H| ->]]].
    + tauto.
    + apply test_results_lines in H. tauto.
    + left. rewrite !elem_of_cons. tauto.
Qed.

(** Without Clippy lines the report has none of the lines of the Clippy
    section. *)
Lemma clippy_section_omitted w x :
  results_of process_clippy_output w = [] →
  x ∈ ["### Rust Analysis"; "#### Clippy Findings";
       "No clippy warnings found."] →
  x ∉ report_lines w.
Proof.
  intros Hnil Hx Hin. apply report_lines_cases in Hin.
  rewrite !elem_of_cons, elem_of_nil in Hx.
  destruct Hx as [->|[->|[->|[]]]];
    (destruct Hin as [H|[H|[[Hne _]|[[_ [H|H]]|[_ [H|H]]]]]];
     absurd_line H).
Qed.

Lemma fmt_section_omitted w x :
  results_of process_fmt_output w = [] →
  x ∈ ["#### Formatting Issues"; "No formatting issues found."] →
  x ∉ report_lines w.
Proof.
  intros Hnil Hx Hin. apply report_lines_cases in Hin.
  rewrite !elem_of_cons, elem_of_nil in Hx.
  destruct Hx as [->|[->|[]]];
    (destruct Hin as [H|[H|[[_ [H|H]]|[[Hne _]|[_ [H|H]]]]]];
     absurd_line H).
Qed.

Lemma test_section_omitted w x :
  results_of process_test_output w = [] →
  x ∈ ["### Test Results"; "✅ All tests passed"; "❌ Some tests failed:"] →
  x ∉ report_lines w.
Proof.
  intros Hnil Hx Hin. apply report_lines_cases in Hin.
  rewrite !elem_of_cons, elem_of_nil in Hx.
  destruct Hx as [->|[->|[->|[]]]];
    (destruct Hin as [H|[H|[[_ [H|H]]|[[_ [H|H]]|[Hne _]]]]];
     absurd_line H).
Qed.

Lemma section_cons heading r results :
  section heading (r :: results) = heading ++ (r :: results) ++ [""].
Proof. reflexivity. Qed.

Lemma clippy_section_rendered w :
  results_of process_clippy_output w ≠ [] →
  renders w (clippy_heading ++ results_of process_clippy_output w ++ [""]).
Proof.
  intros Hne. unfold renders, report_lines.
  rewrite report_content_sections.
  destruct (results_of process_clippy_output w) as [|r rs]; [done|].
  rewrite section_cons.
  eexists (header _), (section fmt_heading _ ++ section test_heading _).
  by rewrite <- !app_assoc.
Qed.

Lemma fmt_section_rendered w :
  results_of process_fmt_output w ≠ [] →
  renders w (fmt_heading ++ results_of process_fmt_output w ++ [""]).
Proof.
  intros Hne. unfold renders, report_lines.
  rewrite report_content_sections.
  destruct (results_of process_fmt_output w) as [|r rs]; [done|].
  rewrite section_cons.
  eexists (header _ ++ section clippy_heading _), (section test_heading _).
  by rewrite <- !app_assoc.
Qed.

Lemma test_section_rendered w :
  results_of process_test_output w ≠ [] →
  renders w (test_heading ++ results_of process_test_output w ++ [""]).
Proof.
  intros Hne. unfold renders, report_lines.
  rewrite report_content_sections.
  destruct (results_of process_test_output w) as [|r rs]; [done|].
  rewrite section_cons.
  eexists (header _ ++ section clippy_heading _ ++ section fmt_heading _), [].
  by rewrite app_nil_r, <- !app_assoc.
Qed.

Lemma results_of_eq m w results :
  m w = (Ok results, w) → results_of m w = results.
Proof. unfold results_of. by intros ->. Qed.

(** ** Absent log files *)

(** C2, as stated, fails: with no [clippy-output.txt] the run produces the
    header alone, and the sentence "No clippy warnings found." is not in the
    report. *)
Lemma absent_log_renders_no_sentence :
  files (world_of ∅) !! "clippy-output.txt" = None ∧
  process_clippy_output (world_of ∅) = (Ok [], world_of ∅) ∧
  report_lines (world_of ∅)
  = ["# Code Analysis Report"; "Generated on: 2026-11-03 10:37:05 UTC";
     ""; "## Summary"; ""] ∧
  "No clippy warnings found." ∉ report_lines (world_of ∅).
Proof.
  split; [reflexivity|]. split; [by vm_compute|].
  assert (report_lines (world_of ∅)
          = ["# Code Analysis Report"; "Generated on: 2026-11-03 10:37:05 UTC";
             ""; "## Summary"; ""]) as Hlines by (by vm_compute).
  split; [exact Hlines|]. rewrite Hlines. intros H. not_in_list H.
Qed.

(** C2, amended: a log file that is absent gives no lines, raises no error,
    and its section is left out of the report: neither its heading nor its
    "no issues" sentence is a line of the report. *)
Theorem absent_log_section_omitted w :
  (files w !! "clippy-output.txt" = None →
   process_clippy_output w = (Ok [], w) ∧
   ∀ x, x ∈ ["### Rust Analysis"; "#### Clippy Findings";
             "No clippy warnings found."] → x ∉ report_lines w) ∧
  (files w !! "fmt-output.txt" = None →
   process_fmt_output w = (Ok [], w) ∧
   ∀ x, x ∈ ["#### Formatting Issues"; "No formatting issues found."] →
        x ∉ report_lines w) ∧
  (files w !! "test-output.txt" = None →
   process_test_output w = (Ok [], w) ∧
   ∀ x, x ∈ ["### Test Results"; "✅ All tests passed";
             "❌ Some tests failed:"] → x ∉ report_lines w).
Proof.
  split; [|split]; intros H.
  - pose proof (process_clippy_output_absent _ H) as Hr. split; [done|].
    intros x. apply clippy_section_omitted. by apply results_of_eq.
  - pose proof (process_fmt_output_absent _ H) as Hr. split; [done|].
    intros x. apply fmt_section_omitted. by apply results_of_eq.
  - pose proof (process_test_output_absent _ H) as Hr. split; [done|].
    intros x. apply test_section_omitted. by apply results_of_eq.
Qed.

Lemma absent_log_section_omitted_witness :
  process_clippy_output (world_of ∅) = (Ok [], world_of ∅) ∧
  process_fmt_output (world_of ∅) = (Ok [], world_of ∅) ∧
  process_test_output (world_of ∅) = (Ok [], world_of ∅) ∧
  "#### Clippy Findings" ∉ report_lines (world_of ∅).
Proof.
  destruct (absent_log_section_omitted (world_of ∅)) as (Hc & Hf & Ht).
  destruct (Hc eq_refl) as [Hc1 Hc2].
  destruct (Hf eq_refl) as [Hf1 _].
  destruct (Ht eq_refl) as [Ht1 _].
  split; [exact Hc1|]. split; [exact Hf1|]. split; [exact Ht1|].
  apply Hc2. rewrite !elem_of_cons. tauto.
Defined.

(** ** Log files without matching lines *)

(** C3, as stated, fails for the Test Results section: a test log that
    exists and has neither marker gives no lines, and the report has no
    Test Results section, no sentence in its place. *)
Lemma quiet_test_log_renders_nothing :
  files (world_of quiet_tests) !! "test-output.txt"
    = Some (File "running 0 tests") ∧
  contains "test result: ok" "running 0 tests" = false ∧
  matches "test result: FAILED" "running 0 tests" = [] ∧
  process_test_output (world_of quiet_tests) = (Ok [], world_of quiet_tests) ∧
  report_lines (world_of quiet_tests)
  = ["# Code Analysis Report"; "Generated on: 2026-11-03 10:37:05 UTC";
     ""; "## Summary"; ""].
Proof. repeat split; by vm_compute. Qed.

(** C3, amended: for a source file that exists and has no matching line,
    Clippy Findings and Formatting Issues each render their fixed "no issues
    found" sentence, under their headings; Test Results has no such sentence:
    a test log with neither marker gives no lines.  A section whose scanner
    gave no lines is left out of the report, headings included. *)
Theorem no_match_sections w text :
  (files w !! "clippy-output.txt" = Some (File text) →
   matches "warning:" text = [] →
   process_clippy_output w = (Ok ["No clippy warnings found."], w) ∧
   renders w ["### Rust Analysis"; ""; "#### Clippy Findings"; "";
              "No clippy warnings found."; ""]) ∧
  (files w !! "fmt-output.txt" = Some (File text) →
   matches "Diff in" text = [] →
   process_fmt_output w = (Ok ["No formatting issues found."], w) ∧
   renders w ["#### Formatting Issues"; "";
              "No formatting issues found."; ""]) ∧
  (files w !! "test-output.txt" = Some (File text) →
   contains "test result: ok" text = false →
   matches "test result: FAILED" text = [] →
   process_test_output w = (Ok [], w)) ∧
  (results_of process_clippy_output w = [] →
   ∀ x, x ∈ ["### Rust Analysis"; "#### Clippy Findings";
             "No clippy warnings found."] → x ∉ report_lines w) ∧
  (results_of process_fmt_output w = [] →
   ∀ x, x ∈ ["#### Formatting Issues"; "No formatting issues found."] →
        x ∉ report_lines w) ∧
  (results_of process_test_output w = [] →
   ∀ x, x ∈ ["### Test Results"; "✅ All tests passed";
             "❌ Some tests failed:"] → x ∉ report_lines w).
Proof.
  repeat apply conj.
  - intros H Hm.
    pose proof (process_clippy_output_text _ _ H) as Hr.
    rewrite Hm in Hr. cbn [truthy] in Hr. split; [exact Hr|].
    pose proof (clippy_section_rendered w) as Hs.
    rewrite (results_of_eq _ _ _ Hr) in Hs. by apply Hs.
  - intros H Hm.
    pose proof (process_fmt_output_text _ _ H) as Hr.
    rewrite Hm in Hr. cbn [truthy] in Hr. split; [exact Hr|].
    pose proof (fmt_section_rendered w) as Hs.
    rewrite (results_of_eq _ _ _ Hr) in Hs. by apply Hs.
  - intros H Hok Hm.
    pose proof (process_test_output_text _ _ H) as Hr.
    by rewrite Hok, Hm in Hr.
  - intros H x. by apply clippy_section_omitted.
  - intros H x. by apply fmt_section_omitted.
  - intros H x. by apply test_section_omitted.
Qed.

Lemma no_match_sections_witness :
  process_clippy_output (world_of quiet_logs)
    = (Ok ["No clippy warnings found."], world_of quiet_logs) ∧
  process_fmt_output (world_of quiet_logs)
    = (Ok ["No formatting issues found."], world_of quiet_logs) ∧
  process_test_output (world_of quiet_logs) = (Ok [], world_of quiet_logs) ∧
  "### Test Results" ∉ report_lines (world_of quiet_logs).
Proof.
  destruct (no_match_sections (world_of quiet_logs) "Finished dev profile")
    as (Hc & Hf & Ht & _ & _ & Ho).
  split; [apply Hc; by vm_compute|].
  split; [apply Hf; by vm_compute|].
  split; [apply Ht; by vm_compute|].
  apply Ho; [by vm_compute|]. rewrite !elem_of_cons. tauto.
Defined.

(** ** Log files with matching lines *)

(** C4: when lines of the Clippy or of the rustfmt log contain the marker,
    the section is a count line that gives their number in decimal, a blank
    line and a fenced block; the block is the lines of the file that contain
    the marker, all of them and no other line, in the order of the file, and
    the section is rendered under its headings. *)
Theorem count_line_and_fenced_block w text :
  (files w !! "clippy-output.txt" = Some (File text) →
   matches "warning:" text ≠ [] →
   process_clippy_output w
   = (Ok (["Found " +:+ str_of_int (length (matches "warning:" text))
                    +:+ " clippy warnings:"; ""; "```"]
          ++ matches "warning:" text ++ ["```"]), w) ∧
   renders w (["### Rust Analysis"; ""; "#### Clippy Findings"; "";
               "Found " +:+ str_of_int (length (matches "warning:" text))
                        +:+ " clippy warnings:"; ""; "```"]
              ++ matches "warning:" text ++ ["```"; ""])) ∧
  (files w !! "fmt-output.txt" = Some (File text) →
   matches "Diff in" text ≠ [] →
   process_fmt_output w
   = (Ok (["Found " +:+ str_of_int (length (matches "Diff in" text))
                    +:+ " formatting issues:"; ""; "```"]
          ++ matches "Diff in" text ++ ["```"]), w) ∧
   renders w (["#### Formatting Issues"; "";
               "Found " +:+ str_of_int (length (matches "Diff in" text))
                        +:+ " formatting issues:"; ""; "```"]
              ++ matches "Diff in" text ++ ["```"; ""])) ∧
  (∀ marker,
     matches marker text = matching_lines marker (splitlines text) ∧
     matches marker text `sublist_of` splitlines text ∧
     ∀ line, line ∈ matches marker text ↔
             line ∈ splitlines text ∧ contains marker line = true) ∧
  (∀ m n, str_of_int m = str_of_int n → m = n).
Proof.
  repeat apply conj.
  - intros H Hm.
    pose proof (process_clippy_output_text _ _ H) as Hr. cbv zeta in Hr.
    destruct (matches "warning:" text) as [|l ls] eqn:E; [done|].
    cbn [truthy] in Hr. split; [exact Hr|].
    pose proof (clippy_section_rendered w) as Hs.
    rewrite (results_of_eq _ _ _ Hr) in Hs.
    cbn [app clippy_heading] in Hs |- *. rewrite <- app_assoc in Hs.
    by apply Hs.
  - intros H Hm.
    pose proof (process_fmt_output_text _ _ H) as Hr. cbv zeta in Hr.
    destruct (matches "Diff in" text) as [|l ls] eqn:E; [done|].
    cbn [truthy] in Hr. split; [exact Hr|].
    pose proof (fmt_section_rendered w) as Hs.
    rewrite (results_of_eq _ _ _ Hr) in Hs.
    cbn [app fmt_heading] in Hs |- *. rewrite <- app_assoc in Hs.
    by apply Hs.
  - intros marker. repeat apply conj.
    + by rewrite matching_lines_filter.
    + apply sublist_filter.
    + intros line. rewrite elem_of_matches, Is_true_true. tauto.
  - apply pretty_nat_inj.
Qed.

Lemma count_line_and_fenced_block_witness :
  process_clippy_output
    (world_of {[ "clippy-output.txt" := File two_warnings ]})
  = (Ok ["Found 2 clippy warnings:"; ""; "```";
         "warning: unused variable"; "warning: unused import"; "```"],
     world_of {[ "clippy-output.txt" := File two_warnings ]}).
Proof.
  destruct (count_line_and_fenced_block
              (world_of {[ "clippy-output.txt" := File two_warnings ]})
              two_warnings) as (Hc & _).
  apply Hc; by vm_compute.
Defined.

(** ** The test log *)

(** C5: the test log is checked in two steps.  If its text contains
    "test result: ok" anywhere, the scanner gives the one line
    "✅ All tests passed", whatever else the file holds, and the report ends
    with the Test Results heading, that line and a blank line, with no failure
    block.  Only without that marker are the lines that contain
    "test result: FAILED" collected; they are rendered in a fenced block
    after "❌ Some tests failed:", and when there are none the scanner
    gives no lines. *)
Theorem test_output_two_branches w text :
  files w !! "test-output.txt" = Some (File text) →
  (contains "test result: ok" text = true →
   process_test_output w = (Ok ["✅ All tests passed"], w) ∧
   (∃ pre, report_lines w
           = pre ++ ["### Test Results"; ""; "✅ All tests passed"; ""]) ∧
   ("❌ Some tests failed:" ∉ results_of process_test_output w) ∧
   "```" ∉ results_of process_test_output w) ∧
  (contains "test result: ok" text = false →
   process_test_output w
   = (Ok (match matching_lines "test result: FAILED" (splitlines text) with
          | [] => []
          | failed_tests =>
              ["❌ Some tests failed:"; ""; "```"] ++ failed_tests ++ ["```"]
          end), w) ∧
   "✅ All tests passed" ∉ results_of process_test_output w).
Proof.
  intros H. pose proof (process_test_output_text _ _ H) as Hr.
  split; intros Hok; rewrite Hok in Hr.
  - split; [exact Hr|]. rewrite (results_of_eq _ _ _ Hr). split; [|split].
    + unfold report_lines. rewrite report_content_sections.
      rewrite (results_of_eq _ _ _ Hr), section_cons.
      eexists (header _ ++ section clippy_heading _ ++ section fmt_heading _).
      by rewrite <- !app_assoc.
    + intros Hin. not_in_list Hin.
    + intros Hin. not_in_list Hin.
  - cbv zeta in Hr. rewrite matching_lines_filter.
    fold (matches "test result: FAILED" text).
    assert (process_test_output w
            = (Ok (match matches "test result: FAILED" text with
                   | [] => []
                   | failed_tests =>
                       ["❌ Some tests failed:"; ""; "```"]
                       ++ failed_tests ++ ["```"]
                   end), w)) as Hr'.
    { rewrite Hr. by destruct (matches "test result: FAILED" text). }
    split; [exact Hr'|]. rewrite (results_of_eq _ _ _ Hr').
    destruct (matches "test result: FAILED" text) as [|l ls] eqn:E.
    { by intros ?%elem_of_nil. }
    rewrite !elem_of_app, !elem_of_cons, !elem_of_nil, <- elem_of_cons, <- E.
    intros [[Hin|[Hin|[Hin|[]]]]|[Hin|[Hin|[]]]]; try discriminate Hin.
    apply elem_of_matches in Hin as [_ Hin]. by vm_compute in Hin.
Qed.

Lemma test_output_two_branches_witness :
  process_test_output (world_of {[ "test-output.txt" := File passing_tests ]})
  = (Ok ["✅ All tests passed"],
     world_of {[ "test-output.txt" := File passing_tests ]}) ∧
  report_lines (world_of {[ "test-output.txt" := File passing_tests ]})
  = ["# Code Analysis Report"; "Generated on: 2026-11-03 10:37:05 UTC";
     ""; "## Summary"; ""; "### Test Results"; ""; "✅ All tests passed"; ""].
Proof.
  destruct (test_output_two_branches
              (world_of {[ "test-output.txt" := File passing_tests ]})
              passing_tests ltac:(by vm_compute)) as [Hok _].
  destruct (Hok ltac:(by vm_compute)) as (Hr & _).
  split; [exact Hr | by vm_compute].
Defined.

(** ** Failures while reading *)

Lemma written_report_run w :
  output_writable (files w) →
  written_report w = Some (join nl (report_lines w)).
Proof.
  intros H. unfold written_report. rewrite (main_run _ H).
  cbn [files]. by rewrite lookup_insert_eq.
Qed.

(** C7: a log source that exists and cannot be read (reading it raises [e]:
    no permission, bytes that do not decode, a directory in its place) does
    not stop the run.  The scanner catches [e] and gives the single line
    "Error processing ... output: " followed by [str(e)]; that line is
    rendered as the content of the section; and, the output location being
    usable, [main] returns normally, having written the report and printed
    the message that names its path. *)
Theorem read_failure_is_reported w :
  output_writable (files w) →
  (∀ n e,
     files w !! "clippy-output.txt" = Some n →
     read_error "clippy-output.txt" n = Some e →
     process_clippy_output w
     = (Ok ["Error processing clippy output: " +:+ exn_str e], w) ∧
     renders w ["### Rust Analysis"; ""; "#### Clippy Findings"; "";
                "Error processing clippy output: " +:+ exn_str e; ""]) ∧
  (∀ n e,
     files w !! "fmt-output.txt" = Some n →
     read_error "fmt-output.txt" n = Some e →
     process_fmt_output w
     = (Ok ["Error processing fmt output: " +:+ exn_str e], w) ∧
     renders w ["#### Formatting Issues"; "";
                "Error processing fmt output: " +:+ exn_str e; ""]) ∧
  (∀ n e,
     files w !! "test-output.txt" = Some n →
     read_error "test-output.txt" n = Some e →
     process_test_output w
     = (Ok ["Error processing test output: " +:+ exn_str e], w) ∧
     renders w ["### Test Results"; "";
                "Error processing test output: " +:+ exn_str e; ""]) ∧
  main w
  = (Ok (),
     {| files := <["reports/analysis-report.md" :=
                     File (join nl (report_lines w))]>
                   (<["reports" := Dir]> (files w));
        stdout := stdout w
                  ++ ["Report generated at reports/analysis-report.md"];
        clock := clock w;
        ticks := S (ticks w) |}).
Proof.
  intros Hw. repeat apply conj; [| | |by apply main_run]; intros n e H He.
  - pose proof (process_clippy_output_failure _ _ _ H He) as Hr.
    split; [exact Hr|].
    pose proof (clippy_section_rendered w) as Hs.
    rewrite (results_of_eq _ _ _ Hr) in Hs. by apply Hs.
  - pose proof (process_fmt_output_failure _ _ _ H He) as Hr.
    split; [exact Hr|].
    pose proof (fmt_section_rendered w) as Hs.
    rewrite (results_of_eq _ _ _ Hr) in Hs. by apply Hs.
  - pose proof (process_test_output_failure _ _ _ H He) as Hr.
    split; [exact Hr|].
    pose proof (test_section_rendered w) as Hs.
    rewrite (results_of_eq _ _ _ Hr) in Hs. by apply Hs.
Qed.

Lemma read_failure_is_reported_witness :
  output_writable unreadable_fmt ∧
  process_fmt_output (world_of unreadable_fmt)
  = (Ok ["Error processing fmt output: " +:+
         "[Errno 13] Permission denied: 'fmt-output.txt'"],
     world_of unreadable_fmt) ∧
  (main (world_of unreadable_fmt)).1 = Ok () ∧
  stdout (main (world_of unreadable_fmt)).2
  = ["Report generated at reports/analysis-report.md"].
Proof.
  assert (output_writable unreadable_fmt) as Hw.
  { split; [left|]; by vm_compute. }
  destruct (read_failure_is_reported (world_of unreadable_fmt) Hw)
    as (_ & Hf & _ & Hm).
  split; [exact Hw|]. split.
  - apply (Hf (Unreadable permission_denied) permission_denied);
      by vm_compute.
  - by rewrite Hm.
Defined.

(** ** Two runs on the same logs *)

Lemma report_text_split w :
  join nl (report_lines w)
  = "# Code Analysis Report" +:+ nl +:+
    "Generated on: " +:+ strftime_utc (clock w (ticks w)) +:+ nl +:+
    after_timestamp w.
Proof.
  unfold report_lines, after_timestamp.
  by rewrite report_content_sections.
Qed.

(** C9: two runs whose three log files are the same (same text, or same
    failure, or absent in both) write the same report except for the
    timestamp line: both texts are the title line, the line "Generated on: "
    with the time of the run, and one and the same remainder. *)
Theorem report_same_but_timestamp w1 w2 :
  output_writable (files w1) →
  output_writable (files w2) →
  files w1 !! "clippy-output.txt" = files w2 !! "clippy-output.txt" →
  files w1 !! "fmt-output.txt" = files w2 !! "fmt-output.txt" →
  files w1 !! "test-output.txt" = files w2 !! "test-output.txt" →
  ∃ rest,
    written_report w1
    = Some ("# Code Analysis Report" +:+ nl +:+
            "Generated on: " +:+ strftime_utc (clock w1 (ticks w1)) +:+ nl +:+
            rest) ∧
    written_report w2
    = Some ("# Code Analysis Report" +:+ nl +:+
            "Generated on: " +:+ strftime_utc (clock w2 (ticks w2)) +:+ nl +:+
            rest).
Proof.
  intros Hw1 Hw2 Hc Hf Ht. exists (after_timestamp w2).
  rewrite !written_report_run, !report_text_split by done.
  split; [|done]. unfold after_timestamp.
  by rewrite (process_clippy_output_ext _ _ Hc),
    (process_fmt_output_ext _ _ Hf), (process_test_output_ext _ _ Ht).
Qed.

Lemma report_same_but_timestamp_witness :
  ∃ rest,
    written_report run_one
    = Some ("# Code Analysis Report" +:+ nl +:+
            "Generated on: 2026-11-03 10:37:05 UTC" +:+ nl +:+ rest) ∧
    written_report run_two
    = Some ("# Code Analysis Report" +:+ nl +:+
            "Generated on: 2027-01-02 23:59:00 UTC" +:+ nl +:+ rest).
Proof.
  apply (report_same_but_timestamp run_one run_two).
  - split; [left|]; by vm_compute.
  - split; [right|]; by vm_compute.
  - by vm_compute.
  - by vm_compute.
  - by vm_compute.
Defined.

(** ** The place of the Formatting Issues heading *)

(** C10: a run whose output location is usable writes the lines
    [report_lines w] to the report file, and "### Rust Analysis" is one of
    them exactly when the Clippy scanner gave lines.  So without
    [clippy-output.txt], and with lines from the rustfmt scanner, the written
    report has "#### Formatting Issues" right after the header, and no line
    above it is a heading of level three. *)
Theorem rust_analysis_heading w :
  output_writable (files w) →
  main w
  = (Ok (),
     {| files := <["reports/analysis-report.md" :=
                     File (join nl (report_lines w))]>
                   (<["reports" := Dir]> (files w));
        stdout := stdout w
                  ++ ["Report generated at reports/analysis-report.md"];
        clock := clock w;
        ticks := S (ticks w) |}) ∧
  ("### Rust Analysis" ∈ report_lines w ↔
   results_of process_clippy_output w ≠ []) ∧
  (files w !! "clippy-output.txt" = None →
   results_of process_fmt_output w ≠ [] →
   ∃ post,
     report_lines w
     = ["# Code Analysis Report";
        "Generated on: " +:+ strftime_utc (clock w (ticks w));
        ""; "## Summary"; ""]
       ++ ["#### Formatting Issues"; ""]
       ++ results_of process_fmt_output w ++ [""] ++ post ∧
     ∀ x, x ∈ ["# Code Analysis Report";
               "Generated on: " +:+ strftime_utc (clock w (ticks w));
               ""; "## Summary"; ""] →
          String.prefix "###" x = false).
Proof.
  intros Hw. split; [by apply main_run|]. split.
  - split.
    + intros Hin Hnil. revert Hin. apply clippy_section_omitted; [done|].
      rewrite !elem_of_cons. tauto.
    + intros Hne. destruct (clippy_section_rendered w Hne) as (pre & post & ->).
      rewrite !elem_of_app. right; left; left. unfold clippy_heading.
      rewrite !elem_of_cons. tauto.
  - intros H Hne.
    exists (section test_heading (results_of process_test_output w)). split.
    + unfold report_lines. rewrite report_content_sections.
      rewrite (results_of_eq _ _ _ (process_clippy_output_absent _ H)).
      destruct (results_of process_fmt_output w) as [|r rs]; [done|].
      rewrite section_cons. cbn [section truthy app header fmt_heading].
      by rewrite <- !app_assoc.
    + intros x. rewrite !elem_of_cons, elem_of_nil.
      intros [->|[->|[->|[->|[->|[]]]]]]; reflexivity.
Qed.

Lemma rust_analysis_heading_witness :
  files (main (world_of unformatted)).2 !! "reports/analysis-report.md"
  = Some (File (join nl
      ["# Code Analysis Report"; "Generated on: 2026-11-03 10:37:05 UTC";
       ""; "## Summary"; "";
       "#### Formatting Issues"; "";
       "Found 1 formatting issues:"; ""; "```";
       "Diff in /src/main.rs at line 3:"; "```"; ""])) ∧
  "### Rust Analysis" ∉ report_lines (world_of unformatted).
Proof.
  destruct (rust_analysis_heading (world_of unformatted))
    as (Hmain & Hiff & Hfmt).
  { split; [left|]; by vm_compute. }
  split.
  - rewrite Hmain. cbn [snd files]. rewrite lookup_insert_eq.
    vm_compute. reflexivity.
  - intros Hin. apply Hiff in Hin. by vm_compute in Hin.
Defined.

End LogScannerFacts.

(* ===================================================================== *)
(** * Properties of the Template-Based Report Builder *)
(* ===================================================================== *)

Section ReviewReportFacts.

Import ReviewReport.

(** ** Metrics *)

Lemma get_len members key :
  list_or_absent members key →
  get (JObj members) key (JArr []) ≫= len = Ok (count_under members key).
Proof.
  unfold list_or_absent, count_under, get.
  by destruct (members !! key) as [[]|].
Qed.

(** C6: for an analysis document that is a mapping whose keys [files],
    [critical], [major], [minor] and [best_practices] are absent or hold
    lists, the metrics are the five counts, each the length of the list
    under its key and 0 for an absent key; nothing is raised.  The empty
    mapping gives five zeros. *)
Theorem calculate_metrics_counts (members : gmap string json) :
  (∀ key, key ∈ ["files"; "critical"; "major"; "minor"; "best_practices"] →
          list_or_absent members key) →
  ∃ metrics,
    _calculate_metrics (JObj members) = Ok metrics ∧
    metrics !! "files_reviewed" = Some (count_under members "files") ∧
    metrics !! "critical_issues" = Some (count_under members "critical") ∧
    metrics !! "major_issues" = Some (count_under members "major") ∧
    metrics !! "minor_issues" = Some (count_under members "minor") ∧
    metrics !! "best_practices"
      = Some (count_under members "best_practices") ∧
    dom metrics = {[ "files_reviewed"; "critical_issues"; "major_issues";
                     "minor_issues"; "best_practices" ]} ∧
    (members = ∅ →
     metrics = {[ "files_reviewed" := 0; "critical_issues" := 0;
                  "major_issues" := 0; "minor_issues" := 0;
                  "best_practices" := 0 ]}).
Proof.
  intros H. unfold _calculate_metrics.
  rewrite !get_len by (apply H; rewrite !elem_of_cons; tauto).
  eexists. split; [reflexivity|]. cbn [list_to_map foldr uncurry].
  repeat apply conj.
  - by simplify_map_eq.
  - by simplify_map_eq.
  - by simplify_map_eq.
  - by simplify_map_eq.
  - by simplify_map_eq.
  - rewrite !dom_insert_L, dom_empty_L. set_solver.
  - intros ->. unfold count_under. rewrite !lookup_empty.
    by rewrite insert_empty.
Qed.

Lemma calculate_metrics_counts_witness :
  (∃ metrics,
     _calculate_metrics (JObj two_files) = Ok metrics ∧
     metrics !! "files_reviewed" = Some 2 ∧
     metrics !! "critical_issues" = Some 1 ∧
     metrics !! "major_issues" = Some 0) ∧
  _calculate_metrics (JObj ∅)
  = Ok {[ "files_reviewed" := 0; "critical_issues" := 0; "major_issues" := 0;
          "minor_issues" := 0; "best_practices" := 0 ]}.
Proof.
  split.
  - destruct (calculate_metrics_counts two_files)
      as (m & Hm & Hf & Hc & Hj & _).
    + intros key Hk. rewrite !elem_of_cons, elem_of_nil in Hk.
      destruct Hk as [->|[->|[->|[->|[->|[]]]]]]; by vm_compute.
    + exists m. split; [exact Hm|]. split; [exact Hf|].
      split; [exact Hc | exact Hj].
  - destruct (calculate_metrics_counts ∅)
      as (m & Hm & _ & _ & _ & _ & _ & _ & H0).
    + intros key _. unfold list_or_absent. by rewrite lookup_empty.
    + rewrite Hm. f_equal. by apply H0.
Defined.

(** ** Loading the inputs *)

Context (json_loads : string → exn + json).
Context (template : Type).
Context (compile : string → exn + template).
Context (render : template → context → exn + string).

Lemma load_fails_result fs p e :
  load_fails json_loads fs p e ↔ load_result json_loads fs p = inl e.
Proof.
  unfold load_result. split.
  - intros [H|n e' H He|text e' H He]; rewrite H; [done| |done].
    destruct n; simpl in He; by simplify_eq.
  - destruct (fs !! p) as [[| text |e']|] eqn:H; intros He; simplify_eq.
    + by eapply load_unreadable.
    + by eapply load_malformed.
    + by eapply load_unreadable.
    + by apply load_not_found.
Qed.

Lemma load_run p w :
  load_analysis_data json_loads p w
  = (match load_result json_loads (files w) p with
     | inl e => Err (Raise e)
     | inr v => Ok v
     end, w).
Proof.
  unfold load_analysis_data, load_result, mbind, M_bind, read_text, lift_exn,
    raise.
  destruct (files w !! p) as [[| text |e']|]; try done.
  by destruct (json_loads text).
Qed.

(** The constructor returns a generator or raises, and leaves the world as
    it is. *)
Lemma init_outcome w :
  (∃ g, __init__ template compile "templates" w = (Ok g, w)) ∨
  (∃ e, __init__ template compile "templates" w = (Err (Raise e), w)).
Proof.
  unfold __init__, mbind, M_bind, path_is_file. cbv zeta beta iota.
  destruct (files w !! _) as [n|] eqn:H; [|right; by eexists].
  destruct n as [| text |e']; [right; by eexists | |];
    unfold read_text; rewrite H; [|right; by eexists].
  unfold lift_exn. destruct (compile text); [right|left]; by eexists.
Qed.

(** [main] constructs the generator, loads the three documents in turn,
    and only then renders and saves. *)
Lemma main_stages prog name af sf pf extra w :
  main json_loads template compile render
    (prog :: name :: af :: sf :: pf :: extra) w =
  match __init__ template compile "templates" w with
  | (Err s, _) => (Err s, w)
  | (Ok g, _) =>
      match load_result json_loads (files w) af with
      | inl e => (Err (Raise e), w)
      | inr a =>
          match load_result json_loads (files w) sf with
          | inl e => (Err (Raise e), w)
          | inr s =>
              match load_result json_loads (files w) pf with
              | inl e => (Err (Raise e), w)
              | inr p => render_and_save template render g name a s p w
              end
          end
      end
  end.
Proof.
  unfold main. destruct (decide _) as [Hlt|_]; [cbn in Hlt; lia|].
  cbn [lookup_total list_lookup_total]. cbv zeta.
  change (load_security_data json_loads) with (load_analysis_data json_loads).
  change (load_performance_data json_loads)
    with (load_analysis_data json_loads).
  unfold mbind at 1, M_bind at 1.
  destruct (init_outcome w) as [[g ->]|[e ->]]; [|done].
  unfold mbind at 1, M_bind at 1. rewrite load_run.
  destruct (load_result json_loads (files w) af) as [e|a]; [done|].
  unfold mbind at 1, M_bind at 1. rewrite load_run.
  destruct (load_result json_loads (files w) sf) as [e|s]; [done|].
  unfold mbind at 1, M_bind at 1. rewrite load_run.
  destruct (load_result json_loads (files w) pf) as [e|p]; [done|].
  reflexivity.
Qed.

(** C8: when loading the analysis, the security or the performance document
    fails (no such file, a file that cannot be read, or text that is not
    JSON), [main] ends with an exception and the world is as it was: no file
    has been written and nothing printed.  With the template loaded, the
    exception is that of the first load that fails. *)
Theorem load_failure_is_fatal prog name af sf pf extra w e :
  let outcome :=
    main json_loads template compile render
      (prog :: name :: af :: sf :: pf :: extra) w in
  load_fails json_loads (files w) af e ∨
  load_fails json_loads (files w) sf e ∨
  load_fails json_loads (files w) pf e →
  (∃ e', outcome = (Err (Raise e'), w)) ∧
  (∀ g, __init__ template compile "templates" w = (Ok g, w) →
     (load_fails json_loads (files w) af e →
      outcome = (Err (Raise e), w)) ∧
     (∀ a, load_result json_loads (files w) af = inr a →
           load_fails json_loads (files w) sf e →
           outcome = (Err (Raise e), w)) ∧
     (∀ a s, load_result json_loads (files w) af = inr a →
             load_result json_loads (files w) sf = inr s →
             load_fails json_loads (files w) pf e →
             outcome = (Err (Raise e), w))).
Proof.
  intros outcome H. subst outcome. rewrite !load_fails_result in H. split.
  - rewrite main_stages.
    destruct (init_outcome w) as [[g ->]|[e' ->]]; [|by eexists].
    destruct (load_result json_loads (files w) af) as [ea|a]; [by eexists|].
    destruct (load_result json_loads (files w) sf) as [es|s]; [by eexists|].
    destruct (load_result json_loads (files w) pf) as [ep|p]; [by eexists|].
    by destruct H as [H|[H|H]].
  - intros g Hg. rewrite main_stages, Hg. repeat apply conj.
    + by intros ->%load_fails_result.
    + by intros a -> ->%load_fails_result.
    + by intros a s -> -> ->%load_fails_result.
Qed.

(** ** Saving the report *)

Lemma render_report_run g name a s p w :
  generate_report template render g name a s p w =
  (match _calculate_metrics a with
   | Ok m =>
       match render (self_template template g)
               {| project_name := name;
                  date := strftime_date (clock w (ticks w));
                  reviewer := "DataScienceBioLab";
                  analysis := a; security := s; performance := p;
                  metrics := m |} with
       | inl e => Err (Raise e)
       | inr report => Ok report
       end
   | Err sg => Err sg
   end,
   {| files := files w; stdout := stdout w;
      clock := clock w; ticks := S (ticks w) |}).
Proof.
  unfold generate_report, mbind, M_bind, now, lift, lift_exn.
  destruct (_calculate_metrics a) as [m|sg]; [|done].
  cbn [clock ticks]. by destruct (render _ _).
Qed.








End ReviewReportFacts.

(** ** A run of the builder on sample inputs *)

Section SampleRuns.

Import ReviewReport.



Lemma load_failure_is_fatal_witness :
  sample_main
    ["report-generator.py"; "squirrel";
     "analysis.json"; "missing.json"; "performance.json"]
    (world_of sample_inputs_with_reports)
  = (Err (Raise (Exn FileNotFoundError
       "[Errno 2] No such file or directory: 'missing.json'")),
     world_of sample_inputs_with_reports).
Proof.
  destruct (load_failure_is_fatal
              sample_loads string sample_compile sample_render
              "report-generator.py" "squirrel"
              "analysis.json" "missing.json" "performance.json" []
              (world_of sample_inputs_with_reports)
              (Exn FileNotFoundError
                 "[Errno 2] No such file or directory: 'missing.json'"))
    as [_ H].
  - right; left. apply (load_not_found sample_loads). vm_compute; reflexivity.
  - destruct (H {| self_template := "# Review of " |}) as (_ & Hs & _).
    + vm_compute; reflexivity.
    + apply (Hs (JObj ∅)).
      * vm_compute; reflexivity.
      * apply (load_not_found sample_loads). vm_compute; reflexivity.
Defined.

End SampleRuns.

(* ===================================================================== *)
(** * More on the Log Scanner: markers *)
(* ===================================================================== *)

Section Substrings.

Lemma append_nil_l s : "" +:+ s = s.
Proof. reflexivity. Qed.

Lemma append_cons c a b : String c a +:+ b = String c (a +:+ b).
Proof. reflexivity. Qed.

Lemma prefix_iff p s :
  String.prefix p s = true ↔ ∃ post, s = p +:+ post.
Proof.
  revert s. induction p as [|c p IH]; intros s.
  - split; [intros _; by exists s | by destruct s].
  - destruct s as [|c' s]; cbn [String.prefix].
    + split; [done | by intros [post ?]].
    + destruct (ascii_dec c c') as [->|Hne].
      * rewrite IH. split; intros [post Hp]; exists post.
        -- by rewrite append_cons, Hp.
        -- rewrite append_cons in Hp. by simplify_eq.
      * split; [done|]. intros [post Hp]. rewrite append_cons in Hp.
        by simplify_eq.
Qed.

(** [needle in hay] holds exactly when [needle] occurs in [hay]. *)
Theorem contains_iff_substring needle hay :
  contains needle hay = true ↔ ∃ pre post, hay = pre +:+ needle +:+ post.
Proof.
  induction hay as [|c hay IH]; cbn [contains].
  - rewrite orb_false_r, prefix_iff. split.
    + intros [post Hp]. by exists "", post.
    + intros (pre & post & Hp). exists post.
      destruct pre; [done | by rewrite append_cons in Hp].
  - rewrite orb_true_iff, prefix_iff, IH. split.
    + intros [[post Hp]|(pre & post & Hp)].
      * by exists "", post.
      * exists (String c pre), post. by rewrite append_cons, Hp.
    + intros (pre & post & Hp). destruct pre as [|c' pre].
      * left. by exists post.
      * right. rewrite append_cons in Hp. simplify_eq. by exists pre, post.
Qed.

End Substrings.

(* ===================================================================== *)
(** * More on the Log Scanner: the run as a whole *)
(* ===================================================================== *)

Section LogScannerRuns.

Import LogScanner.

(** [__init__] fails when something that is not a directory has the name
    [reports]. *)
Lemma init_file_exists w n :
  files w !! "reports" = Some n → n ≠ Dir →
  __init__ w
  = (Err (Raise (Exn FileExistsError
                     (errno_msg "[Errno 17] File exists" "reports"))), w).
Proof.
  intros H Hn. unfold __init__, mbind, M_bind, mkdir_exist_ok. cbv zeta.
  rewrite H. by destruct n.
Qed.

Lemma main_file_exists w n :
  files w !! "reports" = Some n → n ≠ Dir →
  main w
  = (Err (Raise (Exn FileExistsError
                     (errno_msg "[Errno 17] File exists" "reports"))), w).
Proof.
  intros H Hn. unfold main, mbind, M_bind.
  by rewrite (init_file_exists _ _ H Hn).
Qed.

Lemma main_is_a_directory w :
  files w !! "reports" = None ∨ files w !! "reports" = Some Dir →
  files w !! "reports/analysis-report.md" = Some Dir →
  main w
  = (Err (Raise (Exn IsADirectoryError
                     (errno_msg "[Errno 21] Is a directory"
                                "reports/analysis-report.md"))),
     {| files := <["reports" := Dir]> (files w);
        stdout := stdout w;
        clock := clock w;
        ticks := S (ticks w) |}).
Proof.
  intros Hdir Hout. unfold main, mbind at 1, M_bind at 1.
  rewrite (init_run _ Hdir), generate_report_run.
  unfold write_text, set_files. cbn [the_generator report_path].
  cbn [files stdout clock ticks].
  rewrite lookup_insert_ne by done. by rewrite Hout.
Qed.

Lemma node_is_dir (n : node) : n = Dir ∨ n ≠ Dir.
Proof. destruct n; auto. Qed.

(** The three ways a run ends. *)
Lemma main_cases w :
  (output_writable (files w) ∧ (main w).1 = Ok ()) ∨
  (∃ n, files w !! "reports" = Some n ∧ n ≠ Dir ∧ (main w).1 ≠ Ok ()) ∨
  ((files w !! "reports" = None ∨ files w !! "reports" = Some Dir) ∧
   files w !! "reports/analysis-report.md" = Some Dir ∧ (main w).1 ≠ Ok ()).
Proof.
  assert (files w !! "reports/analysis-report.md" = Some Dir ∨
          files w !! "reports/analysis-report.md" ≠ Some Dir) as [Ho|Ho].
  { destruct (files w !! "reports/analysis-report.md") as [[]|]; auto. }
  - destruct (files w !! "reports") as [n|] eqn:Hr.
    + destruct (node_is_dir n) as [->|Hn].
      * right; right. rewrite main_is_a_directory by (rewrite ?Hr; auto).
        auto.
      * right; left. exists n. by rewrite (main_file_exists _ _ Hr Hn).
    + right; right. rewrite main_is_a_directory by (rewrite ?Hr; auto). auto.
  - destruct (files w !! "reports") as [n|] eqn:Hr.
    + destruct (node_is_dir n) as [->|Hn].
      * left. assert (output_writable (files w)) as Hw.
        { split; [rewrite Hr; auto | done]. }
        by rewrite (main_run _ Hw).
      * right; left. exists n. by rewrite (main_file_exists _ _ Hr Hn).
    + left. assert (output_writable (files w)) as Hw.
      { split; [rewrite Hr; auto | done]. }
      by rewrite (main_run _ Hw).
Qed.

(** X1: a run of the Log Scanner ends normally exactly when the output
    location is usable.  With a file named [reports] the constructor raises
    [FileExistsError] and the world is as it was; with a directory at the
    report path the write raises [IsADirectoryError] and nothing is printed. *)
Theorem scanner_run_outcome w :
  ((main w).1 = Ok () ↔ output_writable (files w)) ∧
  (∀ n, files w !! "reports" = Some n → n ≠ Dir →
        main w
        = (Err (Raise (Exn FileExistsError
                           (errno_msg "[Errno 17] File exists" "reports"))),
           w)) ∧
  (files w !! "reports" = None ∨ files w !! "reports" = Some Dir →
   files w !! "reports/analysis-report.md" = Some Dir →
   (main w).1
   = Err (Raise (Exn IsADirectoryError
                     (errno_msg "[Errno 21] Is a directory"
                                "reports/analysis-report.md"))) ∧
   stdout (main w).2 = stdout w ∧
   files (main w).2 = <["reports" := Dir]> (files w)).
Proof.
  split; [split | split].
  - intros Hok.
    destruct (main_cases w) as [[Hw _]|[(n & _ & _ & Hne)|(_ & _ & Hne)]];
      done.
  - intros Hw. by rewrite (main_run _ Hw).
  - apply main_file_exists.
  - intros Hd Ho. by rewrite (main_is_a_directory _ Hd Ho).
Qed.

Lemma scanner_run_outcome_witness :
  main (world_of broken_output)
  = (Err (Raise (Exn FileExistsError "[Errno 17] File exists: 'reports'")),
     world_of broken_output) ∧
  ¬ output_writable broken_output.
Proof.
  destruct (scanner_run_outcome (world_of broken_output)) as (Hiff & Hf & _).
  split.
  - apply (Hf (File "not a directory")); [by vm_compute | done].
  - intros Hw. apply Hiff in Hw.
    rewrite (Hf (File "not a directory")) in Hw; [done | by vm_compute | done].
Defined.

(** X2: whatever its outcome, a run changes no entry of the file system
    other than [reports] and the report itself: the logs it reads, and
    everything else, are as before.  A [reports] directory stays one, and the
    clock is only read. *)
Theorem scanner_run_frame w :
  (∀ p, p ≠ "reports" → p ≠ "reports/analysis-report.md" →
        files (main w).2 !! p = files w !! p) ∧
  (files w !! "reports" = Some Dir →
   files (main w).2 !! "reports" = Some Dir) ∧
  clock (main w).2 = clock w ∧
  (∃ printed, stdout (main w).2 = stdout w ++ printed).
Proof.
  destruct (main_cases w) as [[Hw _]|[(n & Hr & Hn & _)|(Hd & Ho & _)]].
  - rewrite (main_run _ Hw). cbn [snd files clock stdout].
    repeat apply conj; [| | done | by eexists].
    + intros p H1 H2. by rewrite !lookup_insert_ne.
    + intros _. rewrite lookup_insert_ne by done. apply lookup_insert_eq.
  - rewrite (main_file_exists _ _ Hr Hn). cbn [snd].
    repeat apply conj; [done | done | done |].
    exists []. by rewrite app_nil_r.
  - rewrite (main_is_a_directory _ Hd Ho). cbn [snd files clock stdout].
    repeat apply conj; [| | done |].
    + intros p H1 H2. by rewrite lookup_insert_ne.
    + intros _. apply lookup_insert_eq.
    + exists []. by rewrite app_nil_r.
Qed.

Lemma scanner_run_frame_witness :
  files (main run_two).2 !! "clippy-output.txt" = Some (File two_warnings) ∧
  files (main run_two).2 !! "reports" = Some Dir.
Proof.
  destruct (scanner_run_frame run_two) as (Hp & Hd & _). split.
  - rewrite Hp by done. by vm_compute.
  - apply Hd. by vm_compute.
Defined.

(** X3: after a run that ended normally the output location is still usable,
    and a second run, on the world the first one left, writes the same report
    but for the timestamp line, which carries the next reading of the
    clock. *)
Theorem scanner_rerun w :
  output_writable (files w) →
  output_writable (files (main w).2) ∧
  ∃ rest,
    written_report w
    = Some ("# Code Analysis Report" +:+ nl +:+
            "Generated on: " +:+ strftime_utc (clock w (ticks w)) +:+ nl +:+
            rest) ∧
    written_report (main w).2
    = Some ("# Code Analysis Report" +:+ nl +:+
            "Generated on: " +:+ strftime_utc (clock w (S (ticks w)))
            +:+ nl +:+ rest).
Proof.
  intros Hw.
  assert (output_writable (files (main w).2)) as Hw'.
  { rewrite (main_run _ Hw). cbn [snd files]. split.
    - right. rewrite lookup_insert_ne by done. apply lookup_insert_eq.
    - by rewrite lookup_insert_eq. }
  split; [exact Hw'|]. exists (after_timestamp w).
  rewrite !written_report_run, !report_text_split by done.
  split; [done|].
  assert (after_timestamp (main w).2 = after_timestamp w) as ->.
  { unfold after_timestamp.
    rewrite (process_clippy_output_ext _ w), (process_fmt_output_ext _ w),
      (process_test_output_ext _ w); [done | | |];
      rewrite (main_run _ Hw); cbn [snd files]; by rewrite !lookup_insert_ne. }
  by rewrite (main_run _ Hw).
Qed.

Lemma scanner_rerun_witness :
  ∃ rest,
    written_report ticking_world
    = Some ("# Code Analysis Report" +:+ nl +:+
            "Generated on: 2026-11-03 10:37:05 UTC" +:+ nl +:+ rest) ∧
    written_report (main ticking_world).2
    = Some ("# Code Analysis Report" +:+ nl +:+
            "Generated on: 2026-11-03 10:37:06 UTC" +:+ nl +:+ rest).
Proof.
  destruct (scanner_rerun ticking_world) as [_ H].
  - split; [left|]; by vm_compute.
  - exact H.
Defined.

End LogScannerRuns.

(* ===================================================================== *)
(** * More on the Log Scanner: which sections a report has *)
(* ===================================================================== *)

Section LogScannerSections.

Import LogScanner.

Lemma clippy_results_iff w :
  results_of process_clippy_output w ≠ [] ↔
  is_Some (files w !! "clippy-output.txt").
Proof.
  unfold results_of.
  destruct (files w !! "clippy-output.txt") as [n|] eqn:H.
  - destruct (node_cases "clippy-output.txt" n) as [[text ->]|[e He]].
    + rewrite (process_clippy_output_text _ _ H). cbv zeta.
      split; [eauto|]. intros _. by destruct (truthy _).
    + rewrite (process_clippy_output_failure _ _ _ H He). split; [eauto|done].
  - rewrite (process_clippy_output_absent _ H). split; [done|].
    by intros [? ?].
Qed.

Lemma fmt_results_iff w :
  results_of process_fmt_output w ≠ [] ↔
  is_Some (files w !! "fmt-output.txt").
Proof.
  unfold results_of.
  destruct (files w !! "fmt-output.txt") as [n|] eqn:H.
  - destruct (node_cases "fmt-output.txt" n) as [[text ->]|[e He]].
    + rewrite (process_fmt_output_text _ _ H). cbv zeta.
      split; [eauto|]. intros _. by destruct (truthy _).
    + rewrite (process_fmt_output_failure _ _ _ H He). split; [eauto|done].
  - rewrite (process_fmt_output_absent _ H). split; [done|].
    by intros [? ?].
Qed.

Lemma test_results_iff w :
  results_of process_test_output w ≠ [] ↔
  ∃ n, files w !! "test-output.txt" = Some n ∧
       (is_Some (read_error "test-output.txt" n) ∨
        ∃ text, n = File text ∧
                (contains "test result: ok" text = true ∨
                 matches "test result: FAILED" text ≠ [])).
Proof.
  unfold results_of.
  destruct (files w !! "test-output.txt") as [n|] eqn:H.
  - destruct (node_cases "test-output.txt" n) as [[text ->]|[e He]].
    + rewrite (process_test_output_text _ _ H). cbv zeta.
      destruct (contains "test result: ok" text) eqn:Hok.
      * split; [|done]. intros _. exists (File text). eauto 6.
      * destruct (matches "test result: FAILED" text) as [|l ls] eqn:Hm;
          cbn [truthy].
        -- split; [done|]. intros (n & Hn & [[e He]|(t & Ht & [Hc|Hc])]).
           ++ by simplify_eq.
           ++ simplify_eq. congruence.
           ++ by simplify_eq.
        -- split; [|done]. intros _. exists (File text).
           split; [done|]. right. exists text. rewrite Hm. eauto.
    + rewrite (process_test_output_failure _ _ _ H He).
      split; [|done]. intros _. exists n. rewrite He. eauto.
  - rewrite (process_test_output_absent _ H). split; [done|].
    by intros (n & Hn & _).
Qed.

(** X4: a run whose output location is usable writes the lines
    [report_lines w] to the report file; among them is the Clippy Findings
    heading exactly when [clippy-output.txt] exists, whatever it holds, and
    the Formatting Issues heading exactly when [fmt-output.txt] exists.  The
    Test Results heading is there exactly when [test-output.txt] cannot be
    read, or has the success marker, or has a line with the failure
    marker. *)
Theorem section_headings_iff w :
  output_writable (files w) →
  main w
  = (Ok (),
     {| files := <["reports/analysis-report.md" :=
                     File (join nl (report_lines w))]>
                   (<["reports" := Dir]> (files w));
        stdout := stdout w
                  ++ ["Report generated at reports/analysis-report.md"];
        clock := clock w;
        ticks := S (ticks w) |}) ∧
  ("#### Clippy Findings" ∈ report_lines w ↔
   is_Some (files w !! "clippy-output.txt")) ∧
  ("#### Formatting Issues" ∈ report_lines w ↔
   is_Some (files w !! "fmt-output.txt")) ∧
  ("### Test Results" ∈ report_lines w ↔
   ∃ n, files w !! "test-output.txt" = Some n ∧
        (is_Some (read_error "test-output.txt" n) ∨
         ∃ text, n = File text ∧
                 (contains "test result: ok" text = true ∨
                  matches "test result: FAILED" text ≠ []))).
Proof.
  intros Hw. split; [by apply main_run|]. split; [|split].
  - rewrite <- clippy_results_iff. split.
    + intros Hin Hnil. revert Hin. apply clippy_section_omitted; [done|].
      rewrite !elem_of_cons. tauto.
    + intros Hne. destruct (clippy_section_rendered w Hne) as (pre & post & ->).
      rewrite !elem_of_app. right; left; left. unfold clippy_heading.
      rewrite !elem_of_cons. tauto.
  - rewrite <- fmt_results_iff. split.
    + intros Hin Hnil. revert Hin. apply fmt_section_omitted; [done|].
      rewrite !elem_of_cons. tauto.
    + intros Hne. destruct (fmt_section_rendered w Hne) as (pre & post & ->).
      rewrite !elem_of_app. right; left; left. unfold fmt_heading.
      rewrite !elem_of_cons. tauto.
  - rewrite <- test_results_iff. split.
    + intros Hin Hnil. revert Hin. apply test_section_omitted; [done|].
      rewrite !elem_of_cons. tauto.
    + intros Hne. destruct (test_section_rendered w Hne) as (pre & post & ->).
      rewrite !elem_of_app. right; left; left. unfold test_heading.
      rewrite !elem_of_cons. tauto.
Qed.

Lemma section_headings_iff_witness :
  files (main (world_of unformatted)).2 !! "reports/analysis-report.md"
  = Some (File (join nl (report_lines (world_of unformatted)))) ∧
  "#### Formatting Issues" ∈ report_lines (world_of unformatted) ∧
  "#### Clippy Findings" ∉ report_lines (world_of unformatted).
Proof.
  destruct (section_headings_iff (world_of unformatted))
    as (Hmain & Hc & Hf & _).
  { split; [left|]; by vm_compute. }
  split; [|split].
  - rewrite Hmain. cbn [snd files]. by rewrite lookup_insert_eq.
  - apply Hf. eexists. vm_compute. reflexivity.
  - intros Hin. apply Hc in Hin. destruct Hin as [n Hn].
    by vm_compute in Hn.
Defined.

(** ** The scanning loop *)

(** X5: the loop keeps a line exactly when the marker occurs somewhere in
    it: a kept line is a line of the input of the form
    [pre ++ marker ++ post]. *)
Theorem kept_lines_have_marker marker lines x :
  x ∈ matching_lines marker lines ↔
  x ∈ lines ∧ ∃ pre post, x = pre +:+ marker +:+ post.
Proof.
  rewrite matching_lines_filter, list_elem_of_filter, Is_true_true,
    contains_iff_substring. tauto.
Qed.

Lemma kept_lines_have_marker_witness :
  "x warning: y" ∈ matching_lines "warning:" ["note"; "x warning: y"].
Proof.
  apply kept_lines_have_marker. split.
  - rewrite !elem_of_cons. tauto.
  - by exists "x ", " y".
Defined.

(** X6: scanning two logs one after the other gives the lines of the first
    followed by those of the second; scanning the result again changes
    nothing; the result is never longer than the input, and it is the whole
    input exactly when every line has the marker. *)
Theorem matching_lines_algebra marker l1 l2 :
  matching_lines marker (l1 ++ l2)
  = matching_lines marker l1 ++ matching_lines marker l2 ∧
  matching_lines marker (matching_lines marker l1)
  = matching_lines marker l1 ∧
  (length (matching_lines marker l1) ≤ length l1)%nat ∧
  (matching_lines marker l1 = l1 ↔
   ∀ x, x ∈ l1 → contains marker x = true).
Proof.
  rewrite !matching_lines_filter. split; [|split; [|split]].
  - apply filter_app.
  - induction l1 as [|x l IH]; [done|].
    destruct (contains marker x) eqn:Hx.
    + rewrite !filter_cons_True by (by apply Is_true_true_2). by rewrite IH.
    + rewrite filter_cons_False; [done|]. by rewrite Is_true_false, Hx.
  - apply length_filter.
  - split.
    + intros Heq x Hx. rewrite <- Heq in Hx.
      apply list_elem_of_filter in Hx as [Hx _]. by apply Is_true_true.
    + intros Hall. induction l1 as [|x l IH]; [done|].
      rewrite filter_cons_True.
      * f_equal. apply IH. intros y Hy. apply Hall. by right.
      * apply Is_true_true, Hall. by left.
Qed.

End LogScannerSections.

(* ===================================================================== *)
(** * More on the Template-Based Report Builder: the metrics *)
(* ===================================================================== *)

Section MetricsFacts.

Import ReviewReport.

Lemma len_py_size v :
  len v = match py_size v with
          | Some n => Ok n
          | None => Err (Raise (Exn TypeError
                      ("object of type '" +:+ type_name v
                                          +:+ "' has no len()")))
          end.
Proof. by destruct v. Qed.

Lemma calculate_metrics_unfold members :
  _calculate_metrics (JObj members)
  = (files_reviewed ← count_of members "files";
     critical_issues ← count_of members "critical";
     major_issues ← count_of members "major";
     minor_issues ← count_of members "minor";
     best_practices ← count_of members "best_practices";
     mret (list_to_map
             [("files_reviewed", files_reviewed);
              ("critical_issues", critical_issues);
              ("major_issues", major_issues);
              ("minor_issues", minor_issues);
              ("best_practices", best_practices)])).
Proof. reflexivity. Qed.

(** A count is computed, or [len] raises [TypeError]. *)
Lemma count_of_cases members key :
  (∃ n, count_of members key = Ok n ∧
        n = match members !! key with
            | Some v => default 0 (py_size v)
            | None => 0
            end ∧
        ∀ v, members !! key = Some v → is_Some (py_size v)) ∨
  (∃ v, members !! key = Some v ∧ py_size v = None ∧
        count_of members key
        = Err (Raise (Exn TypeError
                 ("object of type '" +:+ type_name v +:+ "' has no len()")))).
Proof.
  unfold count_of. rewrite len_py_size.
  destruct (members !! key) as [v|] eqn:Hk; simpl.
  - destruct (py_size v) as [n|] eqn:Hv.
    + left. exists n. split; [done|]. split; [done|].
      intros v' ?. simplify_eq. eauto.
    + right. by exists v.
  - left. exists 0. split; [done|]. split; [done|]. by intros v' ?.
Qed.

Ltac step_count members key :=
  let Hc := fresh "Hc" in
  destruct (count_of_cases members key)
    as [(? & Hc & ? & ?)|(? & ? & ? & Hc)];
  rewrite Hc in *; clear Hc; cbn [mbind result_bind] in *.

(** X7: the metrics are computed exactly for a mapping whose five keys are
    absent or hold a value with a length: a list, and also a string or a
    mapping.  Each count is then the length of the value under its key
    (items, characters, keys), and 0 for an absent key. *)
Theorem calculate_metrics_succeeds_iff a :
  ((∃ metrics, _calculate_metrics a = Ok metrics) ↔
   ∃ members, a = JObj members ∧
     ∀ key v, key ∈ metric_keys → members !! key = Some v →
              is_Some (py_size v)) ∧
  (∀ members metrics key field,
     _calculate_metrics (JObj members) = Ok metrics →
     (key, field) ∈ metric_fields →
     metrics !! field
     = Some (match members !! key with
             | Some v => default 0 (py_size v)
             | None => 0
             end)).
Proof.
  split; [split|].
  - intros [metrics Hm]. destruct a as [| | | | | |members]; try done.
    exists members. split; [done|]. intros key v Hk Hv.
    rewrite calculate_metrics_unfold in Hm. unfold metric_keys in Hk.
    step_count members "files"; [|done].
    step_count members "critical"; [|done].
    step_count members "major"; [|done].
    step_count members "minor"; [|done].
    step_count members "best_practices"; [|done].
    rewrite !elem_of_cons, elem_of_nil in Hk.
    destruct Hk as [->|[->|[->|[->|[->|[]]]]]]; eauto.
  - intros (members & -> & Hall). rewrite calculate_metrics_unfold.
    unfold metric_keys in Hall.
    step_count members "files";
      [|exfalso; edestruct Hall as [? ?]; [|done|congruence];
        rewrite !elem_of_cons; tauto].
    step_count members "critical";
      [|exfalso; edestruct Hall as [? ?]; [|done|congruence];
        rewrite !elem_of_cons; tauto].
    step_count members "major";
      [|exfalso; edestruct Hall as [? ?]; [|done|congruence];
        rewrite !elem_of_cons; tauto].
    step_count members "minor";
      [|exfalso; edestruct Hall as [? ?]; [|done|congruence];
        rewrite !elem_of_cons; tauto].
    step_count members "best_practices";
      [|exfalso; edestruct Hall as [? ?]; [|done|congruence];
        rewrite !elem_of_cons; tauto].
    by eexists.
  - intros members metrics key field Hm Hk.
    rewrite calculate_metrics_unfold in Hm.
    step_count members "files"; [|done].
    step_count members "critical"; [|done].
    step_count members "major"; [|done].
    step_count members "minor"; [|done].
    step_count members "best_practices"; [|done].
    unfold mret, result_ret in Hm. injection Hm as <-.
    unfold metric_fields in Hk. rewrite !elem_of_cons, elem_of_nil in Hk.
    cbn [list_to_map foldr uncurry].
    destruct Hk as [?|[?|[?|[?|[?|[]]]]]]; simplify_eq;
      by simplify_map_eq.
Qed.

Lemma calculate_metrics_succeeds_iff_witness :
  ∃ metrics,
    _calculate_metrics (JObj string_valued) = Ok metrics ∧
    metrics !! "files_reviewed" = Some 5 ∧
    metrics !! "critical_issues" = Some 2 ∧
    metrics !! "minor_issues" = Some 0.
Proof.
  destruct (calculate_metrics_succeeds_iff (JObj string_valued))
    as [[_ Hex] Hcount].
  destruct Hex as [m Hm].
  { exists string_valued. split; [done|]. intros key v Hk Hv.
    unfold metric_keys in Hk. rewrite !elem_of_cons, elem_of_nil in Hk.
    destruct Hk as [->|[->|[->|[->|[->|[]]]]]];
      vm_compute in Hv; simplify_eq; by eexists. }
  exists m. split; [exact Hm|]. split; [|split].
  - apply (Hcount string_valued m "files" "files_reviewed" Hm).
    unfold metric_fields. rewrite !elem_of_cons. tauto.
  - apply (Hcount string_valued m "critical" "critical_issues" Hm).
    unfold metric_fields. rewrite !elem_of_cons. tauto.
  - apply (Hcount string_valued m "minor" "minor_issues" Hm).
    unfold metric_fields. rewrite !elem_of_cons. tauto.
Defined.

(** X8: the two ways the metrics fail.  A document that is not a mapping
    (a list, a string, a number, ...) has no [get]: [AttributeError], with
    the name of its type.  A mapping with one of the five keys holding a
    value without a length (a number, a boolean, null) makes [len] raise
    [TypeError]. *)
Theorem calculate_metrics_errors :
  (∀ a, (∀ members, a ≠ JObj members) →
        _calculate_metrics a
        = Err (Raise (Exn AttributeError
                 ("'" +:+ type_name a
                      +:+ "' object has no attribute 'get'")))) ∧
  (∀ members key v,
     key ∈ metric_keys → members !! key = Some v → py_size v = None →
     ∃ v', py_size v' = None ∧
           _calculate_metrics (JObj members)
           = Err (Raise (Exn TypeError
                    ("object of type '" +:+ type_name v'
                                        +:+ "' has no len()")))).
Proof.
  split.
  - intros a Ha. destruct a as [| | | | | |members]; try done.
    by destruct (Ha members).
  - intros members key v Hk Hv Hnone. rewrite calculate_metrics_unfold.
    unfold metric_keys in Hk.
    step_count members "files"; [|by eexists].
    step_count members "critical"; [|by eexists].
    step_count members "major"; [|by eexists].
    step_count members "minor"; [|by eexists].
    step_count members "best_practices"; [|by eexists].
    exfalso. rewrite !elem_of_cons, elem_of_nil in Hk.
    assert (is_Some (py_size v)) as [n Hn];
      [|congruence].
    destruct Hk as [->|[->|[->|[->|[->|[]]]]]]; eauto.
Qed.

Lemma calculate_metrics_errors_witness :
  _calculate_metrics (JArr [JStr "src/main.rs"])
  = Err (Raise (Exn AttributeError "'list' object has no attribute 'get'")) ∧
  ∃ v', py_size v' = None ∧
        _calculate_metrics (JObj {[ "major" := JInt 3 ]})
        = Err (Raise (Exn TypeError
                 ("object of type '" +:+ type_name v' +:+ "' has no len()"))).
Proof.
  destruct calculate_metrics_errors as [Hattr Htype]. split.
  - by apply Hattr.
  - apply (Htype {[ "major" := JInt 3 ]} "major" (JInt 3)).
    + unfold metric_keys. rewrite !elem_of_cons. tauto.
    + by vm_compute.
    + done.
Defined.

Lemma count_of_insert_ne members key v k :
  key ≠ k → count_of (<[key := v]> members) k = count_of members k.
Proof. intros H. unfold count_of. by rewrite lookup_insert_ne. Qed.

Lemma count_of_delete_ne members key k :
  key ≠ k → count_of (delete key members) k = count_of members k.
Proof. intros H. unfold count_of. by rewrite lookup_delete_ne. Qed.

(** X9: the metrics depend on the five keys only: setting or removing any
    other key of the document leaves them as they are. *)
Theorem calculate_metrics_other_keys members key v :
  key ∉ metric_keys →
  _calculate_metrics (JObj (<[key := v]> members))
  = _calculate_metrics (JObj members) ∧
  _calculate_metrics (JObj (delete key members))
  = _calculate_metrics (JObj members).
Proof.
  intros Hk. unfold metric_keys in Hk.
  rewrite !not_elem_of_cons in Hk.
  destruct Hk as (H1 & H2 & H3 & H4 & H5 & _).
  rewrite !calculate_metrics_unfold. split.
  - by rewrite (count_of_insert_ne _ _ _ _ H1), (count_of_insert_ne _ _ _ _ H2),
      (count_of_insert_ne _ _ _ _ H3), (count_of_insert_ne _ _ _ _ H4),
      (count_of_insert_ne _ _ _ _ H5).
  - by rewrite (count_of_delete_ne _ _ _ H1), (count_of_delete_ne _ _ _ H2),
      (count_of_delete_ne _ _ _ H3), (count_of_delete_ne _ _ _ H4),
      (count_of_delete_ne _ _ _ H5).
Qed.

Lemma calculate_metrics_other_keys_witness :
  _calculate_metrics (JObj (<["summary" := JInt 7]> two_files))
  = _calculate_metrics (JObj two_files).
Proof.
  destruct (calculate_metrics_other_keys two_files "summary" (JInt 7))
    as [H _]; [|exact H].
  unfold metric_keys. rewrite !not_elem_of_cons.
  split; [discriminate|]. split; [discriminate|]. split; [discriminate|].
  split; [discriminate|]. split; [discriminate|]. apply not_elem_of_nil.
Defined.

End MetricsFacts.

(* ===================================================================== *)
(** * More on the Template-Based Report Builder: the run as a whole *)
(* ===================================================================== *)

Section BuilderRuns.

Import ReviewReport.

Context (json_loads : string → exn + json).
Context (template : Type).
Context (compile : string → exn + template).
Context (render : template → context → exn + string).

Lemma calculate_metrics_raises a s :
  _calculate_metrics a = Err s → ∃ e, s = Raise e.
Proof.
  destruct a as [| | | | | |members];
    try (intros H; injection H as <-; by eexists).
  rewrite calculate_metrics_unfold. intros H.
  repeat match type of H with
  | context [count_of members ?k] =>
      let Hc := fresh "Hc" in
      destruct (count_of_cases members k)
        as [(? & Hc & _ & _)|(? & _ & _ & Hc)];
      rewrite Hc in H; clear Hc; cbn [mbind result_bind] in H;
      [|simplify_eq; by eexists]
  end.
  done.
Qed.

(** Writing a file ends with the file written, or with an exception and the
    world as it was. *)
Lemma write_text_cases p text w :
  write_text p text w = (Ok (), set_files w (<[p := File text]> (files w))) ∨
  ∃ e, write_text p text w = (Err (Raise e), w).
Proof.
  unfold write_text, raise.
  destruct (files w !! p) as [[]|]; eauto;
    destruct (is_dir (files w) (dirname p)); eauto;
    destruct (files w !! dirname p); eauto.
Qed.

Lemma render_and_save_run g name a s p w :
  render_and_save template render g name a s p w =
  match _calculate_metrics a with
  | Ok m =>
      match render (self_template template g)
              {| project_name := name;
                 date := strftime_date (clock w (ticks w));
                 reviewer := "DataScienceBioLab";
                 analysis := a; security := s; performance := p;
                 metrics := m |} with
      | inl e => (Err (Raise e), tick w)
      | inr report =>
          let out := "reports/" +:+ name +:+ "-review-"
                       +:+ strftime_compact (clock w (S (ticks w)))
                       +:+ ".md" in
          match write_text out report (tick (tick w)) with
          | (Ok _, w') => print ("Report generated: " +:+ out) w'
          | (Err sg, w') => (Err sg, w')
          end
      end
  | Err sg => (Err sg, tick w)
  end.
Proof.
  unfold render_and_save, mbind at 1, M_bind at 1.
  rewrite render_report_run.
  destruct (_calculate_metrics a) as [m|sg]; [|done].
  by destruct (render _ _).
Qed.

(** Once the documents are loaded, [main] ends with the report saved and
    the message printed, or with an exception, nothing written and nothing
    printed. *)
Lemma render_and_save_cases g name a s p w :
  let out := "reports/" +:+ name +:+ "-review-"
               +:+ strftime_compact (clock w (S (ticks w))) +:+ ".md" in
  let r := render_and_save template render g name a s p w in
  (∃ report,
     r = (Ok (),
          {| files := <[out := File report]> (files w);
             stdout := stdout w ++ ["Report generated: " +:+ out];
             clock := clock w;
             ticks := S (S (ticks w)) |})) ∨
  (∃ e, r.1 = Err (Raise e) ∧ files r.2 = files w ∧ stdout r.2 = stdout w).
Proof.
  intros out r. subst r. rewrite render_and_save_run.
  destruct (_calculate_metrics a) as [m|sg] eqn:Hm.
  - destruct (render _ _) as [e|report]; [right; by exists e|].
    cbv zeta. fold out.
    destruct (write_text_cases out report (tick (tick w))) as [->|[e ->]].
    + left. by exists report.
    + right. by exists e.
  - destruct (calculate_metrics_raises _ _ Hm) as [e ->]. right. by exists e.
Qed.

(** The ways a run of the builder ends. *)
Lemma builder_cases argv w :
  let out := "reports/" +:+ (argv !!! 1) +:+ "-review-"
               +:+ strftime_compact (clock w (S (ticks w))) +:+ ".md" in
  let r := main json_loads template compile render argv w in
  ((length argv < 5)%nat ∧
   r = (Err (SysExit 1),
        {| files := files w; stdout := stdout w ++ [usage];
           clock := clock w; ticks := ticks w |})) ∨
  ((5 ≤ length argv)%nat ∧
   ∃ report,
     r = (Ok (),
          {| files := <[out := File report]> (files w);
             stdout := stdout w ++ ["Report generated: " +:+ out];
             clock := clock w;
             ticks := S (S (ticks w)) |})) ∨
  ((5 ≤ length argv)%nat ∧
   ∃ e, r.1 = Err (Raise e) ∧ files r.2 = files w ∧ stdout r.2 = stdout w).
Proof.
  intros out r. destruct (decide (length argv < 5)%nat) as [Hlt|Hge].
  - left. split; [done|]. subst r. unfold main.
    destruct (decide _) as [_|?]; [|lia]. reflexivity.
  - right.
    destruct argv as [|prog [|name [|af [|sf [|pf extra]]]]];
      cbn [length] in Hge; try lia.
    assert (5 ≤ length (prog :: name :: af :: sf :: pf :: extra))%nat
      as Hlen by (cbn [length]; lia).
    subst r out. cbn [lookup_total list_lookup_total].
    rewrite main_stages.
    destruct (init_outcome template compile w) as [[g ->]|[e ->]];
      [|right; split; [done|]; by exists e].
    destruct (load_result json_loads (files w) af) as [e|a];
      [right; split; [done|]; by exists e|].
    destruct (load_result json_loads (files w) sf) as [e|s];
      [right; split; [done|]; by exists e|].
    destruct (load_result json_loads (files w) pf) as [e|p];
      [right; split; [done|]; by exists e|].
    destruct (render_and_save_cases g name a s p w) as [Hok|Herr];
      [left|right]; by split.
Qed.

(** X10: the builder ends with [sys.exit] exactly when it is given fewer
    than four arguments, and then with status 1: it has printed the usage
    line and done nothing else (no template, no input, no clock read, no file
    written).  With four arguments or more it never exits that way. *)
Theorem builder_exit_status argv w :
  let r := main json_loads template compile render argv w in
  ((length argv < 5)%nat →
   r = (Err (SysExit 1),
        {| files := files w; stdout := stdout w ++ [usage];
           clock := clock w; ticks := ticks w |})) ∧
  (∀ code, r.1 = Err (SysExit code) → (length argv < 5)%nat ∧ code = 1).
Proof.
  intros r. subst r. split.
  - intros Hlt.
    destruct (builder_cases argv w) as [[_ H]|[[Hge _]|[Hge _]]];
      [exact H | lia | lia].
  - intros code Hc.
    destruct (builder_cases argv w)
      as [[Hlt H]|[[_ [report H]]|[_ (e & H & _)]]];
      rewrite H in Hc; [|done|done].
    cbn in Hc. by simplify_eq.
Qed.

(** X12: a failure after the three documents are loaded is fatal too.  When
    the metrics cannot be computed (the analysis document is valid JSON of
    the wrong shape) or the template engine raises while rendering, [main]
    ends with that exception; the clock has been read once and nothing is
    written or printed. *)
Theorem failure_after_loading prog name af sf pf extra w g a s p :
  let outcome :=
    main json_loads template compile render
      (prog :: name :: af :: sf :: pf :: extra) w in
  __init__ template compile "templates" w = (Ok g, w) →
  load_result json_loads (files w) af = inr a →
  load_result json_loads (files w) sf = inr s →
  load_result json_loads (files w) pf = inr p →
  (∀ e, _calculate_metrics a = Err (Raise e) →
        outcome = (Err (Raise e), tick w)) ∧
  (∀ m e,
     _calculate_metrics a = Ok m →
     render (self_template template g)
       {| project_name := name;
          date := strftime_date (clock w (ticks w));
          reviewer := "DataScienceBioLab";
          analysis := a; security := s; performance := p;
          metrics := m |} = inl e →
     outcome = (Err (Raise e), tick w)).
Proof.
  intros outcome Hg Ha Hs Hp. subst outcome.
  rewrite main_stages, Hg, Ha, Hs, Hp, render_and_save_run. split.
  - by intros e ->.
  - by intros m e -> ->.
Qed.

(** X13: [main] uses its first four arguments only: the name of the program
    and any further argument make no difference. *)
Theorem further_arguments_ignored prog prog' name af sf pf extra extra' w :
  main json_loads template compile render
    (prog :: name :: af :: sf :: pf :: extra) w
  = main json_loads template compile render
      (prog' :: name :: af :: sf :: pf :: extra') w.
Proof. by rewrite !main_stages. Qed.

(** X14: the template comes first.  Given its four arguments, when
    [templates/code_review_template.md] is not a file the builder ends with
    [TemplateNotFound], whatever the three inputs are, and the world is as it
    was. *)
Theorem template_missing_first argv w :
  (5 ≤ length argv)%nat →
  files w !! "templates/code_review_template.md" = None ∨
  files w !! "templates/code_review_template.md" = Some Dir →
  main json_loads template compile render argv w
  = (Err (Raise (Exn TemplateNotFound "code_review_template.md")), w).
Proof.
  intros Hlen Ht.
  destruct argv as [|prog [|name [|af [|sf [|pf extra]]]]];
    cbn [length] in Hlen; try lia.
  rewrite main_stages.
  assert (__init__ template compile "templates" w
          = (Err (Raise (Exn TemplateNotFound "code_review_template.md")), w))
    as ->; [|done].
  unfold __init__, mbind, M_bind, path_is_file. cbv zeta.
  change ("templates" +:+ "/" +:+ "code_review_template.md")
    with "templates/code_review_template.md".
  by destruct Ht as [-> | ->].
Qed.

(** ** Project names with a separator *)





End BuilderRuns.

(** ** Runs of the builder on sample inputs, continued *)

Section MoreSampleRuns.

Import ReviewReport.

Lemma builder_exit_status_witness :
  sample_main ["report-generator.py"; "squirrel"; "analysis.json"]
    (world_of sample_inputs)
  = (Err (SysExit 1),
     {| files := sample_inputs; stdout := [usage];
        clock := clock (world_of sample_inputs); ticks := 0 |}).
Proof.
  destruct (builder_exit_status sample_loads string sample_compile
              sample_render
              ["report-generator.py"; "squirrel"; "analysis.json"]
              (world_of sample_inputs)) as [H _].
  apply H. cbn [length]. lia.
Defined.

Lemma failure_after_loading_witness :
  main list_loads string sample_compile sample_render sample_argv
    (world_of list_inputs)
  = (Err (Raise (Exn AttributeError "'list' object has no attribute 'get'")),
     tick (world_of list_inputs)).
Proof.
  destruct (failure_after_loading list_loads string sample_compile
              sample_render
              "report-generator.py" "squirrel"
              "analysis.json" "security.json" "performance.json" []
              (world_of list_inputs)
              {| self_template := "# Review of " |}
              (JArr []) (JObj ∅) (JObj ∅)) as [Hmetrics _].
  - vm_compute; reflexivity.
  - vm_compute; reflexivity.
  - vm_compute; reflexivity.
  - vm_compute; reflexivity.
  - apply Hmetrics. reflexivity.
Defined.

Lemma template_missing_first_witness :
  sample_main sample_argv (world_of ∅)
  = (Err (Raise (Exn TemplateNotFound "code_review_template.md")),
     world_of ∅).
Proof.
  apply (template_missing_first sample_loads string sample_compile
           sample_render sample_argv (world_of ∅)).
  - cbn [sample_argv length]. lia.
  - left. reflexivity.
Defined.


End MoreSampleRuns.
